(** * Row-level security of the genealogy database

    A shallow embedding of the Sprint 9 security-hardening migration
    (the SQL file with the SEC-01 .. SEC-06 sections) and of the part of
    [src/lib/validations/person.ts] that fixes the values a new person
    form starts from.  Three components that work on the same rows are
    embedded as well: the filters of the people list page, the handlers of
    the add-event dialog and the featured charter card.

    The migration is a list of PostgreSQL row-level-security policies, one
    column default and one corrective UPDATE.  A policy is a boolean
    expression over a row and over [auth.uid()]; a row is returned by a
    SELECT when at least one permissive policy of its table evaluates to
    TRUE.  Row-level security filters rows, never columns: a returned row
    carries every column.

    Assumptions of the model (the schema of the tables and the earlier
    migrations are not part of the files embedded here):
    - row-level security is enabled on the six tables and the SELECT
      policies created by this migration are the only SELECT policies left
      on them (the migration drops the older ones by name);
    - [privacy_level] and [is_living] are never NULL (the form schema types
      them as a required number and a boolean);
    - the five contact columns and the other text columns are nullable. *)

From Stdlib Require Import ZArith String List Bool Lia.
From Stdlib Require Import Sorted Permutation.
Import ListNotations.
Local Open Scope Z_scope.
Local Open Scope string_scope.

(** ** SQL values and three-valued comparison *)

Definition uuid := string.

(** A cell of a result row. *)
Inductive SqlValue : Type :=
| VNull
| VText (s : string)
| VInt (z : Z)
| VBool (b : bool).

Definition text_cell (c : option string) : SqlValue :=
  match c with Some s => VText s | None => VNull end.

Definition int_cell (c : option Z) : SqlValue :=
  match c with Some z => VInt z | None => VNull end.

(** [c IS NULL] and [c IS NOT NULL] are two-valued. *)
Definition is_null {A : Type} (c : option A) : bool :=
  match c with None => true | Some _ => false end.

Definition is_not_null {A : Type} (c : option A) : bool := negb (is_null c).

(** [a = b] on nullable text is NULL (here [None]) when either side is. *)
Definition sql_eq (a b : option string) : option bool :=
  match a, b with
  | Some x, Some y => Some (String.eqb x y)
  | _, _ => None
  end.

(** SQL [AND] on three truth values. *)
Definition sql_and (a b : option bool) : option bool :=
  match a, b with
  | Some false, _ | _, Some false => Some false
  | Some true, Some true => Some true
  | _, _ => None
  end.

(** A WHERE or USING clause keeps a row only when it evaluates to TRUE. *)
Definition sql_true (t : option bool) : bool :=
  match t with Some true => true | _ => false end.

(** ** Tables *)

(** A row of [profiles]: the account of a registered user. *)
Record Profile : Type := {
  user_id : uuid;
  profile_email : option string;
  role : string
}.

(** A row of [people], with the columns of [personSchema] and the key. *)
Record Person : Type := {
  id : uuid;
  handle : string;
  display_name : string;
  first_name : option string;
  middle_name : option string;
  surname : option string;
  pen_name : option string;
  taboo_name : option string;
  gender : Z;
  generation : Z;
  chi : option Z;
  birth_date : option string;
  birth_year : option Z;
  birth_place : option string;
  death_date : option string;
  death_year : option Z;
  death_place : option string;
  death_lunar : option string;
  is_living : bool;
  is_patrilineal : bool;
  phone : option string;
  email : option string;
  zalo : option string;
  facebook : option string;
  address : option string;
  hometown : option string;
  occupation : option string;
  biography : option string;
  notes : option string;
  avatar_url : option string;
  privacy_level : Z
}.

(** [SET privacy_level = v] on one row: every other column is kept. *)
Definition set_privacy_level (v : Z) (r : Person) : Person :=
  {| id := id r; handle := handle r; display_name := display_name r;
     first_name := first_name r; middle_name := middle_name r;
     surname := surname r; pen_name := pen_name r;
     taboo_name := taboo_name r; gender := gender r;
     generation := generation r; chi := chi r;
     birth_date := birth_date r; birth_year := birth_year r;
     birth_place := birth_place r; death_date := death_date r;
     death_year := death_year r; death_place := death_place r;
     death_lunar := death_lunar r; is_living := is_living r;
     is_patrilineal := is_patrilineal r; phone := phone r;
     email := email r; zalo := zalo r; facebook := facebook r;
     address := address r; hometown := hometown r;
     occupation := occupation r; biography := biography r;
     notes := notes r; avatar_url := avatar_url r;
     privacy_level := v |}.

(** The same row with another living flag. *)
Definition set_is_living (b : bool) (r : Person) : Person :=
  {| id := id r; handle := handle r; display_name := display_name r;
     first_name := first_name r; middle_name := middle_name r;
     surname := surname r; pen_name := pen_name r;
     taboo_name := taboo_name r; gender := gender r;
     generation := generation r; chi := chi r;
     birth_date := birth_date r; birth_year := birth_year r;
     birth_place := birth_place r; death_date := death_date r;
     death_year := death_year r; death_place := death_place r;
     death_lunar := death_lunar r; is_living := b;
     is_patrilineal := is_patrilineal r; phone := phone r;
     email := email r; zalo := zalo r; facebook := facebook r;
     address := address r; hometown := hometown r;
     occupation := occupation r; biography := biography r;
     notes := notes r; avatar_url := avatar_url r;
     privacy_level := privacy_level r |}.

(** The columns of [people], to name what a returned row carries. *)
Inductive PersonColumn : Type :=
| col_id | col_handle | col_display_name | col_first_name | col_middle_name
| col_surname | col_pen_name | col_taboo_name | col_gender | col_generation
| col_chi | col_birth_date | col_birth_year | col_birth_place
| col_death_date | col_death_year | col_death_place | col_death_lunar
| col_is_living | col_is_patrilineal | col_phone | col_email | col_zalo
| col_facebook | col_address | col_hometown | col_occupation
| col_biography | col_notes | col_avatar_url | col_privacy_level.

Definition all_person_columns : list PersonColumn :=
  [col_id; col_handle; col_display_name; col_first_name; col_middle_name;
   col_surname; col_pen_name; col_taboo_name; col_gender; col_generation;
   col_chi; col_birth_date; col_birth_year; col_birth_place;
   col_death_date; col_death_year; col_death_place; col_death_lunar;
   col_is_living; col_is_patrilineal; col_phone; col_email; col_zalo;
   col_facebook; col_address; col_hometown; col_occupation;
   col_biography; col_notes; col_avatar_url; col_privacy_level].

Definition column_value (c : PersonColumn) (r : Person) : SqlValue :=
  match c with
  | col_id => VText (id r)
  | col_handle => VText (handle r)
  | col_display_name => VText (display_name r)
  | col_first_name => text_cell (first_name r)
  | col_middle_name => text_cell (middle_name r)
  | col_surname => text_cell (surname r)
  | col_pen_name => text_cell (pen_name r)
  | col_taboo_name => text_cell (taboo_name r)
  | col_gender => VInt (gender r)
  | col_generation => VInt (generation r)
  | col_chi => int_cell (chi r)
  | col_birth_date => text_cell (birth_date r)
  | col_birth_year => int_cell (birth_year r)
  | col_birth_place => text_cell (birth_place r)
  | col_death_date => text_cell (death_date r)
  | col_death_year => int_cell (death_year r)
  | col_death_place => text_cell (death_place r)
  | col_death_lunar => text_cell (death_lunar r)
  | col_is_living => VBool (is_living r)
  | col_is_patrilineal => VBool (is_patrilineal r)
  | col_phone => text_cell (phone r)
  | col_email => text_cell (email r)
  | col_zalo => text_cell (zalo r)
  | col_facebook => text_cell (facebook r)
  | col_address => text_cell (address r)
  | col_hometown => text_cell (hometown r)
  | col_occupation => text_cell (occupation r)
  | col_biography => text_cell (biography r)
  | col_notes => text_cell (notes r)
  | col_avatar_url => text_cell (avatar_url r)
  | col_privacy_level => VInt (privacy_level r)
  end.

(** The contact bundle: phone, email, zalo, facebook, address. *)
Definition is_contact_column (c : PersonColumn) : bool :=
  match c with
  | col_phone | col_email | col_zalo | col_facebook | col_address => true
  | _ => false
  end.

(** A row of [events], with the columns the add-event dialog writes. *)
Record Event : Type := {
  event_id : uuid;
  title : string;
  event_type : string;
  person_id : option uuid;
  event_lunar : option string;
  event_date : option string;
  location : option string;
  description : option string;
  recurring : bool
}.

(** A row of [media]: a file, optionally attached to a person. *)
Record Media : Type := {
  media_id : uuid;
  media_person_id : option uuid;
  media_url : string
}.

Record Database : Type := {
  profiles : list Profile;
  people : list Person;
  events : list Event;
  media : list Media
}.

(** ** The SELECT policies of the migration

    [auth_uid] is the value of [auth.uid()] for the request: [None] (NULL)
    for an unauthenticated request, the user's id otherwise. *)

Section Policies.

Variable auth_uid : option uuid.
Variable db : Database.

(** SEC-01, "Authenticated users can read profiles":
    [USING (auth.uid() IS NOT NULL)]. *)
Definition authenticated_users_can_read_profiles (p : Profile) : bool :=
  is_not_null auth_uid.

Definition select_profiles : list Profile :=
  filter authenticated_users_can_read_profiles (profiles db).

(** SEC-02/04, "Public read for public non-contact people". *)
Definition public_read_for_public_non_contact_people (r : Person) : bool :=
  (privacy_level r =? 0)%Z
  && is_null (phone r)
  && is_null (email r)
  && is_null (zalo r)
  && is_null (facebook r)
  && is_null (address r).

(** "Authenticated users can read non-private people". *)
Definition authenticated_users_can_read_non_private_people
    (r : Person) : bool :=
  is_not_null auth_uid && (privacy_level r <? 2)%Z.

(** The sub-select of "Admins can read all people":
    [EXISTS (SELECT 1 FROM profiles p WHERE p.user_id = auth.uid()
    AND p.role = 'admin')].  It reads [profiles] as the requesting user,
    hence through the policy of that table. *)
Definition exists_admin_profile : bool :=
  existsb
    (fun p => sql_true (sql_and (sql_eq (Some (user_id p)) auth_uid)
                                (sql_eq (Some (role p)) (Some "admin"))))
    select_profiles.

(** "Admins can read all people". *)
Definition admins_can_read_all_people (r : Person) : bool :=
  exists_admin_profile.

(** Permissive policies of one table are combined with OR. *)
Definition people_select_using (r : Person) : bool :=
  public_read_for_public_non_contact_people r
  || authenticated_users_can_read_non_private_people r
  || admins_can_read_all_people r.

Definition select_people : list Person :=
  filter people_select_using (people db).

(** SEC-06: families, children, events and media all get
    [USING (auth.uid() IS NOT NULL)]; the row is not inspected. *)
Definition authenticated_can_read_families {Row : Type} (r : Row) : bool :=
  is_not_null auth_uid.

Definition authenticated_can_read_children {Row : Type} (r : Row) : bool :=
  is_not_null auth_uid.

Definition authenticated_can_read_events (e : Event) : bool :=
  is_not_null auth_uid.

Definition authenticated_can_read_media (m : Media) : bool :=
  is_not_null auth_uid.

Definition select_events : list Event :=
  filter authenticated_can_read_events (events db).

Definition select_media : list Media :=
  filter authenticated_can_read_media (media db).

End Policies.

(** ** Actors and decisions

    The three kinds of requester the policies tell apart: no session
    ([auth.uid()] is NULL), a session whose user has an [admin] profile,
    and any other session. *)

Inductive Actor : Type :=
| Anonymous
| Member (u : uuid)
| Admin (u : uuid).

Definition resolve (auth_uid : option uuid) (db : Database) : Actor :=
  match auth_uid with
  | None => Anonymous
  | Some u => if exists_admin_profile auth_uid db then Admin u else Member u
  end.

(** The outcome of a SELECT for one row. *)
Inductive Decision : Type :=
| Allow
| Deny.

Definition decision_of (passes : bool) : Decision :=
  if passes then Allow else Deny.

Definition profiles_decision (auth_uid : option uuid) (p : Profile)
  : Decision :=
  decision_of (authenticated_users_can_read_profiles auth_uid p).

Definition people_decision (auth_uid : option uuid) (db : Database)
    (r : Person) : Decision :=
  decision_of (people_select_using auth_uid db r).

Definition events_decision (auth_uid : option uuid) (e : Event) : Decision :=
  decision_of (authenticated_can_read_events auth_uid e).

Definition media_decision (auth_uid : option uuid) (m : Media) : Decision :=
  decision_of (authenticated_can_read_media auth_uid m).

(** Row-level security cannot restrict columns: a row that passes is
    returned whole, a row that does not pass is not returned at all. *)
Definition visible_columns (auth_uid : option uuid) (db : Database)
    (r : Person) : list PersonColumn :=
  match people_decision auth_uid db r with
  | Allow => all_person_columns
  | Deny => []
  end.

(** ** SEC-03: the column default, and INSERT *)

(** [ALTER TABLE people ALTER COLUMN privacy_level SET DEFAULT 1]. *)
Definition people_privacy_level_default : Z := 1.

(** The value INSERT stores in [privacy_level]: the one the statement
    gives, or the column default when the statement leaves the column
    out. *)
Definition stored_privacy_level (given : option Z) : Z :=
  match given with
  | Some v => v
  | None => people_privacy_level_default
  end.

(** [INSERT INTO people]: [values] carries the other columns. *)
Definition insert_people (values : Person) (given : option Z)
    (t : list Person) : list Person :=
  (t ++ [set_privacy_level (stored_privacy_level given) values])%list.

(** ** SEC-05: the corrective UPDATE *)

(** The WHERE clause of the UPDATE. *)
Definition sec05_where (r : Person) : bool :=
  (privacy_level r =? 0)%Z
  && Bool.eqb (is_living r) true
  && (is_not_null (phone r)
      || is_not_null (email r)
      || is_not_null (zalo r)
      || is_not_null (facebook r)
      || is_not_null (address r)).

Definition sec05_update_row (r : Person) : Person :=
  if sec05_where r then set_privacy_level 1 r else r.

(** [UPDATE people SET privacy_level = 1 WHERE ...] on the whole table. *)
Definition sec05_update_people (t : list Person) : list Person :=
  map sec05_update_row t.

Definition sec05_update (db : Database) : Database :=
  {| profiles := profiles db;
     people := sec05_update_people (people db);
     events := events db;
     media := media db |}.

(** ** The person form ([src/lib/validations/person.ts]) *)

(** [PersonFormData], the type inferred from [personSchema]. *)
Record PersonFormData : Type := {
  fd_handle : string;
  fd_display_name : string;
  fd_first_name : string;
  fd_middle_name : string;
  fd_surname : string;
  fd_pen_name : string;
  fd_taboo_name : string;
  fd_gender : Z;
  fd_generation : Z;
  fd_chi : option Z;
  fd_birth_date : string;
  fd_birth_year : option Z;
  fd_birth_place : string;
  fd_death_date : string;
  fd_death_year : option Z;
  fd_death_place : string;
  fd_death_lunar : string;
  fd_is_living : bool;
  fd_is_patrilineal : bool;
  fd_phone : string;
  fd_email : string;
  fd_zalo : string;
  fd_facebook : string;
  fd_address : string;
  fd_hometown : string;
  fd_occupation : string;
  fd_biography : string;
  fd_notes : string;
  fd_avatar_url : string;
  fd_privacy_level : Z
}.

Definition defaultPersonValues : PersonFormData :=
  {| fd_handle := "";
     fd_display_name := "";
     fd_first_name := "";
     fd_middle_name := "";
     fd_surname := "";
     fd_pen_name := "";
     fd_taboo_name := "";
     fd_gender := 1;
     fd_generation := 1;
     fd_chi := None;
     fd_birth_date := "";
     fd_birth_year := None;
     fd_birth_place := "";
     fd_death_date := "";
     fd_death_year := None;
     fd_death_place := "";
     fd_death_lunar := "";
     fd_is_living := true;
     fd_is_patrilineal := true;
     fd_phone := "";
     fd_email := "";
     fd_zalo := "";
     fd_facebook := "";
     fd_address := "";
     fd_hometown := "";
     fd_occupation := "";
     fd_biography := "";
     fd_notes := "";
     fd_avatar_url := "";
     fd_privacy_level := 0 |}.

(** [privacy_level: requiredNumericString]: the key is required, so the
    data a submitted form yields always gives the column a value. *)
Definition personSchema_privacy_level (d : PersonFormData) : option Z :=
  Some (fd_privacy_level d).

(** ** The people list page ([src/app/(main)/people/page.tsx])

    Strings are sequences of bytes here ([includes] on the UTF-8 bytes of
    well-formed text finds what it finds on the text); [toLowerCase] and
    [parseInt] are the JavaScript built-ins, taken as they are ([None]
    stands for NaN).  Numbers are integers, as generations and branch
    numbers are. *)

Module PeoplePage.

(** [s.includes(sub)]: [sub] occurs in [s] as a contiguous run. *)
Fixpoint includes (s sub : string) : bool :=
  String.prefix sub s
  || match s with
     | EmptyString => false
     | String _ rest => includes rest sub
     end.

(** [a === b] for a number that may be missing and a number that may be
    NaN: missing and NaN are equal to nothing. *)
Definition strict_eq (a b : option Z) : bool :=
  match a, b with
  | Some x, Some y => (x =? y)%Z
  | _, _ => false
  end.

(** [new Set(xs)] spread into an array: the distinct values, each at its
    first occurrence. *)
Fixpoint Set_values (xs : list Z) : list Z :=
  match xs with
  | [] => []
  | x :: rest => x :: filter (fun y => negb (y =? x)%Z) (Set_values rest)
  end.

Fixpoint insert_number (x : Z) (l : list Z) : list Z :=
  match l with
  | [] => [x]
  | y :: rest => if (x <=? y)%Z then x :: l else y :: insert_number x rest
  end.

(** [xs.sort((a, b) => a - b)] on integers: the ascending arrangement. *)
Definition sort_numbers (xs : list Z) : list Z :=
  fold_right insert_number [] xs.

(** The four pieces of state the filters are kept in. *)
Record Filters : Type := {
  search : string;
  generationFilter : string;
  chiFilter : string;
  statusFilter : string
}.

(** The state [clearFilters] sets, which is also the initial state. *)
Definition clearFilters : Filters :=
  {| search := ""; generationFilter := "all"; chiFilter := "all";
     statusFilter := "all" |}.

Definition hasFilters (f : Filters) : bool :=
  negb (search f =? "")
  || negb (generationFilter f =? "all")
  || negb (chiFilter f =? "all")
  || negb (statusFilter f =? "all").

(** [generations]: the generations present, ascending. *)
Definition generations (people : option (list Person)) : list Z :=
  match people with
  | None => []
  | Some ps => sort_numbers (Set_values (map generation ps))
  end.

(** [p.chi] as a condition: a missing branch number and 0 are falsy. *)
Definition chi_truthy (p : Person) : bool :=
  match chi p with
  | Some c => negb (c =? 0)%Z
  | None => false
  end.

(** [p.chi!] on a row that passed the filter. *)
Definition chi_value (p : Person) : Z :=
  match chi p with Some c => c | None => 0 end.

Definition chiValues (people : option (list Person)) : list Z :=
  match people with
  | None => []
  | Some ps => sort_numbers (Set_values (map chi_value (filter chi_truthy ps)))
  end.

Section Page.

Variable toLowerCase : string -> string.
Variable parseInt : string -> option Z.

(** The callback of [people.filter] in [filteredPeople]. *)
Definition keeps (f : Filters) (person : Person) : bool :=
  if negb (search f =? "")
     && negb (includes (toLowerCase (display_name person))
                       (toLowerCase (search f)))
  then false
  else if negb (generationFilter f =? "all")
          && negb (strict_eq (Some (generation person))
                             (parseInt (generationFilter f)))
  then false
  else if negb (chiFilter f =? "all")
          && negb (strict_eq (chi person) (parseInt (chiFilter f)))
  then false
  else if (statusFilter f =? "living") && negb (is_living person)
  then false
  else if (statusFilter f =? "deceased") && is_living person
  then false
  else true.

Definition filteredPeople (f : Filters) (people : option (list Person))
  : list Person :=
  match people with
  | None => []
  | Some ps => filter (keeps f) ps
  end.

End Page.

(** The same filters with another status. *)
Definition with_status (status : string) (f : Filters) : Filters :=
  {| search := search f; generationFilter := generationFilter f;
     chiFilter := chiFilter f; statusFilter := status |}.

End PeoplePage.

(** ** The add-event dialog ([src/components/events/add-event-dialog.tsx])

    [parseLunarString] (from [lib/lunar-calendar]) and [trim] are taken as
    they are; [parseLunarString] answers with a date or with null. *)

Module AddEventDialog.

(** The React state of the dialog. *)
Record State : Type := {
  title : string;
  eventType : string;
  selectedPerson : option Person;
  personQuery : string;
  personDropOpen : bool;
  eventLunar : string;
  lunarError : string;
  eventDate : string;
  location : string;
  description : string;
  recurring : bool
}.

Definition initial : State :=
  {| title := ""; eventType := "gio"; selectedPerson := None;
     personQuery := ""; personDropOpen := false; eventLunar := "";
     lunarError := ""; eventDate := ""; location := ""; description := "";
     recurring := true |}.

(** The argument of [createEvent.mutateAsync]. *)
Record CreateEventInput : Type := {
  input_title : string;
  input_event_type : string;
  input_person_id : option uuid;
  input_event_lunar : option string;
  input_event_date : option string;
  input_location : option string;
  input_description : option string;
  input_recurring : bool
}.

(** What a submit does, in order. *)
Inductive Effect : Type :=
| ToastError (message : string)
| Mutate (input : CreateEventInput)
| ToastSuccess (message : string)
| OnClose.

(** [s || undefined]. *)
Definition or_undefined (s : string) : option string :=
  if s =? "" then None else Some s.

(** [(searchResults || []).filter(p => !p.is_living)]. *)
Definition filteredResults (searchResults : option (list Person))
  : list Person :=
  filter (fun p => negb (is_living p))
         (match searchResults with Some ps => ps | None => [] end).

(** [onValueChange] of the event-type select. *)
Definition setEventType (v : string) (st : State) : State :=
  {| title := title st; eventType := v;
     selectedPerson := selectedPerson st; personQuery := personQuery st;
     personDropOpen := personDropOpen st; eventLunar := eventLunar st;
     lunarError := lunarError st; eventDate := eventDate st;
     location := location st; description := description st;
     recurring := recurring st |}.

(** [onChange] of the title input. *)
Definition setTitle (v : string) (st : State) : State :=
  {| title := v; eventType := eventType st;
     selectedPerson := selectedPerson st; personQuery := personQuery st;
     personDropOpen := personDropOpen st; eventLunar := eventLunar st;
     lunarError := lunarError st; eventDate := eventDate st;
     location := location st; description := description st;
     recurring := recurring st |}.

Definition handleSelectPerson (person : Person) (st : State) : State :=
  let gio := eventType st =? "gio" in
  let lunar :=
    match death_lunar person with
    | Some d => if d =? "" then None else Some d
    | None => None
    end in
  {| title := if gio then "Giỗ " ++ display_name person else title st;
     eventType := eventType st;
     selectedPerson := Some person;
     personQuery := "";
     personDropOpen := false;
     eventLunar := match lunar with
                   | Some d => if gio then d else eventLunar st
                   | None => eventLunar st
                   end;
     lunarError := match lunar with
                   | Some _ => if gio then "" else lunarError st
                   | None => lunarError st
                   end;
     eventDate := eventDate st; location := location st;
     description := description st; recurring := recurring st |}.

Definition handleClearPerson (st : State) : State :=
  {| title := title st; eventType := eventType st;
     selectedPerson := None; personQuery := "";
     personDropOpen := personDropOpen st; eventLunar := eventLunar st;
     lunarError := lunarError st; eventDate := eventDate st;
     location := location st; description := description st;
     recurring := recurring st |}.

Section Dialog.

Variable LunarDate : Type.
Variable parseLunarString : string -> option LunarDate.
Variable trim : string -> string.

Definition lunar_ok (value : string) : bool :=
  match parseLunarString value with Some _ => true | None => false end.

(** The two checks of [handleSubmit], as a condition on the state. *)
Definition submittable (st : State) : Prop :=
  trim (title st) <> ""
  /\ (eventLunar st = "" \/ parseLunarString (eventLunar st) <> None).

Definition validateLunar (value : string) (st : State) : State :=
  {| title := title st; eventType := eventType st;
     selectedPerson := selectedPerson st; personQuery := personQuery st;
     personDropOpen := personDropOpen st;
     eventLunar := value;
     lunarError :=
       if value =? "" then ""
       else if lunar_ok value then ""
       else "Sai định dạng. VD: 15/7 (ngày/tháng)";
     eventDate := eventDate st; location := location st;
     description := description st; recurring := recurring st |}.

Definition submit_input (st : State) : CreateEventInput :=
  {| input_title := trim (title st);
     input_event_type := eventType st;
     input_person_id := option_map id (selectedPerson st);
     input_event_lunar := or_undefined (eventLunar st);
     input_event_date := or_undefined (eventDate st);
     input_location := or_undefined (location st);
     input_description := or_undefined (description st);
     input_recurring := recurring st |}.

(** [handleSubmit]; [mutateAsync input] tells whether the request
    resolves ([true]) or rejects. *)
Definition handleSubmit (mutateAsync : CreateEventInput -> bool)
    (st : State) : list Effect :=
  if trim (title st) =? "" then [ToastError "Vui lòng nhập tiêu đề"]
  else if negb (eventLunar st =? "") && negb (lunar_ok (eventLunar st))
  then [ToastError "Ngày âm lịch không hợp lệ"]
  else
    let input := submit_input st in
    if mutateAsync input
    then [Mutate input; ToastSuccess "Đã thêm sự kiện"; OnClose]
    else [Mutate input; ToastError "Lỗi khi thêm sự kiện"].

End Dialog.


Definition is_mutate (e : Effect) : bool :=
  match e with Mutate _ => true | _ => false end.

End AddEventDialog.

(** ** The featured charter card ([src/components/home/featured-charter.tsx]) *)

Module FeaturedCharter.

Record Article : Type := {
  article_id : uuid;
  article_title : string;
  category : string;
  content : string
}.

(** The own properties of the [categoryLabels] object. *)
Definition categoryLabels : list (string * string) :=
  [("gia_huan", "Gia huấn"); ("quy_uoc", "Quy ước"); ("loi_dan", "Lời dặn")].

(** What reading a property of an object literal gives: the string stored
    under an own key, a function or object found on [Object.prototype], or
    undefined. *)
Inductive PropertyValue : Type :=
| OwnString (s : string)
| Inherited
| Undefined.

(** What the badge is given to show. *)
Inductive BadgeChild : Type :=
| Text (s : string)
| NotText.

Record Item : Type := {
  item_key : uuid;
  item_title : string;
  item_badge : BadgeChild;
  item_content : string
}.

Fixpoint own_property (key : string) (o : list (string * string))
  : option string :=
  match o with
  | [] => None
  | (k, v) :: rest => if k =? key then Some v else own_property key rest
  end.

Section Card.

(** The property names [Object.prototype] answers to. *)
Variable object_prototype_has : string -> bool.

(** [categoryLabels[key]]. *)
Definition get (key : string) : PropertyValue :=
  match own_property key categoryLabels with
  | Some v => OwnString v
  | None => if object_prototype_has key then Inherited else Undefined
  end.

(** [categoryLabels[article.category] || article.category]. *)
Definition badge (a : Article) : BadgeChild :=
  match get (category a) with
  | OwnString v => if v =? "" then Text (category a) else Text v
  | Inherited => NotText
  | Undefined => Text (category a)
  end.

Definition render_article (a : Article) : Item :=
  {| item_key := article_id a; item_title := article_title a;
     item_badge := badge a; item_content := content a |}.

(** The component: [None] is the [null] it returns to render nothing,
    [Some items] the card with its entries. *)
Definition FeaturedCharter (isLoading : bool)
    (articles : option (list Article)) : option (list Item) :=
  match articles with
  | None => None
  | Some l =>
      if isLoading || Nat.eqb (List.length l) 0 then None
      else Some (map render_article (firstn 3 l))
  end.

End Card.

End FeaturedCharter.

(** ** Families and children *)

(** A SELECT on [families] and on [children], over any row type. *)
Definition select_families {Row : Type} (auth_uid : option uuid)
    (t : list Row) : list Row :=
  filter (authenticated_can_read_families auth_uid) t.

Definition select_children {Row : Type} (auth_uid : option uuid)
    (t : list Row) : list Row :=
  filter (authenticated_can_read_children auth_uid) t.

(** ** Sample data *)

Module Sample.

(** A historical ancestor: public, deceased, no contact data. *)
Definition ancestor : Person :=
  {| id := "p-ancestor"; handle := "to-tien"; display_name := "To Tien";
     first_name := None; middle_name := None; surname := None;
     pen_name := None; taboo_name := None; gender := 1;
     generation := 1; chi := None;
     birth_date := None; birth_year := Some 1820; birth_place := None;
     death_date := None; death_year := Some 1890; death_place := None;
     death_lunar := Some "15/7"; is_living := false;
     is_patrilineal := true; phone := None; email := None;
     zalo := None; facebook := None; address := None;
     hometown := None; occupation := None;
     biography := Some "Founder of the branch";
     notes := Some "Grave moved in 1952";
     avatar_url := None; privacy_level := 0 |}.

(** A living person left public, without contact data. *)
Definition living_public : Person := set_is_living true ancestor.

(** Scenario 1: public tier, living, a phone number stored. *)
Definition living_with_phone : Person :=
  {| id := "p-living"; handle := "van-a"; display_name := "Van A";
     first_name := None; middle_name := None; surname := None;
     pen_name := None; taboo_name := None; gender := 1;
     generation := 7; chi := Some 2;
     birth_date := None; birth_year := Some 1980; birth_place := None;
     death_date := None; death_year := None; death_place := None;
     death_lunar := None; is_living := true;
     is_patrilineal := true; phone := Some "0900000000"; email := None;
     zalo := None; facebook := None; address := None;
     hometown := None; occupation := None;
     biography := None; notes := None;
     avatar_url := None; privacy_level := 0 |}.

Definition members_only : Person := set_privacy_level 1 living_with_phone.

Definition private_person : Person := set_privacy_level 2 living_with_phone.

Definition admin_profile : Profile :=
  {| user_id := "u-admin"; profile_email := Some "admin@example.org";
     role := "admin" |}.

Definition member_profile : Profile :=
  {| user_id := "u-member"; profile_email := Some "member@example.org";
     role := "member" |}.

(** A commemoration that references the private person. *)
Definition private_event : Event :=
  {| event_id := "e-1"; title := "Gio Van A"; event_type := "gio";
     person_id := Some "p-living"; event_lunar := Some "15/7";
     event_date := None; location := None; description := None;
     recurring := true |}.

Definition private_photo : Media :=
  {| media_id := "m-1"; media_person_id := Some "p-living";
     media_url := "photos/van-a.jpg" |}.

Definition db : Database :=
  {| profiles := [admin_profile; member_profile];
     people := [ancestor; private_person];
     events := [private_event];
     media := [private_photo] |}.

Definition corpus : list Person :=
  [ancestor; living_public; living_with_phone; members_only;
   private_person].

End Sample.

(** Sample data for the dialog and the charter card. *)
Module DialogSample.

(** A stand-in for [parseLunarString]: it knows one date. *)
Definition parse (s : string) : option unit :=
  if s =? "15/7" then Some tt else None.

Definition resolves (_ : AddEventDialog.CreateEventInput) : bool := true.

(** The dialog after the ancestor was picked. *)
Definition picked : AddEventDialog.State :=
  AddEventDialog.handleSelectPerson Sample.ancestor AddEventDialog.initial.

(** A deceased person whose lunar death date is written with a dash. *)
Definition dashed : Person :=
  {| id := "p-dashed"; handle := "cu-ba"; display_name := "Cu Ba";
     first_name := None; middle_name := None; surname := None;
     pen_name := None; taboo_name := None; gender := 2;
     generation := 2; chi := None;
     birth_date := None; birth_year := None; birth_place := None;
     death_date := None; death_year := Some 1901; death_place := None;
     death_lunar := Some "15-7"; is_living := false;
     is_patrilineal := false; phone := None; email := None;
     zalo := None; facebook := None; address := None;
     hometown := None; occupation := None;
     biography := None; notes := None;
     avatar_url := None; privacy_level := 0 |}.

Definition article (n : string) : FeaturedCharter.Article :=
  {| FeaturedCharter.article_id := n;
     FeaturedCharter.article_title := "Dieu " ++ n;
     FeaturedCharter.category := "gia_huan";
     FeaturedCharter.content := "..." |}.

Definition articles : list FeaturedCharter.Article :=
  [article "1"; article "2"; article "3"; article "4"].

End DialogSample.

(** ** Statements compared with the policies *)

(** The rows the sweep is meant for: public, living, some contact column
    set. *)
Definition public_living_with_contact (r : Person) : Prop :=
  privacy_level r = 0 /\ is_living r = true /\
  (phone r <> None \/ email r <> None \/ zalo r <> None \/
   facebook r <> None \/ address r <> None).

(** The field rule of the specification for anonymous reads: whenever a
    request without a session is allowed to read a person, biography and
    notes are outside the visible columns while name and generation are
    inside. *)
Definition anonymous_fields_exclude_biography_and_notes : Prop :=
  forall (db : Database) (r : Person),
    people_decision None db r = Allow ->
    ~ In col_biography (visible_columns None db r)
    /\ ~ In col_notes (visible_columns None db r)
    /\ In col_display_name (visible_columns None db r)
    /\ In col_generation (visible_columns None db r).

(** The inheritance rule of the specification: an event that references
    a tier-2 person is denied to every member. *)
Definition events_inherit_person_tier : Prop :=
  forall (db : Database) (a : option uuid) (u : uuid) (e : Event)
         (p : Person),
    resolve a db = Member u ->
    In p (people db) -> person_id e = Some (id p) -> privacy_level p = 2 ->
    events_decision a e = Deny.

(** ** Facts about the policies *)

Section PolicyFacts.

Variable db : Database.

Lemma is_not_null_true_iff {A : Type} (c : option A) :
  is_not_null c = true <-> c <> None.
Proof.
  destruct c; cbn; split; intro H; try reflexivity; try discriminate.
  congruence.
Qed.

Lemma is_null_true_iff {A : Type} (c : option A) :
  is_null c = true <-> c = None.
Proof. destruct c; cbn; split; intro H; congruence. Qed.

Lemma decision_of_allow (b : bool) : decision_of b = Allow <-> b = true.
Proof. destruct b; cbn; split; intro H; congruence. Qed.

Lemma decision_of_deny (b : bool) : decision_of b = Deny <-> b = false.
Proof. destruct b; cbn; split; intro H; congruence. Qed.

(** Without a session the sub-select on [profiles] returns no row. *)
Lemma select_profiles_anonymous : select_profiles None db = [].
Proof.
  unfold select_profiles, authenticated_users_can_read_profiles.
  induction (profiles db) as [|p ps IH]; cbn; [reflexivity | exact IH].
Qed.

Lemma exists_admin_profile_anonymous : exists_admin_profile None db = false.
Proof.
  unfold exists_admin_profile. rewrite select_profiles_anonymous.
  reflexivity.
Qed.

(** With a session every profile is readable. *)
Lemma select_profiles_authenticated (u : uuid) :
  select_profiles (Some u) db = profiles db.
Proof.
  unfold select_profiles, authenticated_users_can_read_profiles. cbn.
  induction (profiles db) as [|p ps IH]; cbn; [reflexivity | now rewrite IH].
Qed.

Lemma resolve_anonymous (a : option uuid) :
  resolve a db = Anonymous <-> a = None.
Proof.
  unfold resolve. destruct a as [u|].
  - destruct (exists_admin_profile (Some u) db); split; discriminate.
  - split; reflexivity.
Qed.

Lemma resolve_member (a : option uuid) (u : uuid) :
  resolve a db = Member u ->
  a = Some u /\ exists_admin_profile a db = false.
Proof.
  unfold resolve. destruct a as [v|]; [|discriminate].
  destruct (exists_admin_profile (Some v) db); [discriminate|].
  intro H. injection H as ->. split; reflexivity.
Qed.

Lemma resolve_admin (a : option uuid) (u : uuid) :
  resolve a db = Admin u ->
  a = Some u /\ exists_admin_profile a db = true.
Proof.
  unfold resolve. destruct a as [v|]; [|discriminate].
  destruct (exists_admin_profile (Some v) db); [|discriminate].
  intro H. injection H as ->. split; reflexivity.
Qed.

(** The public policy, spelled out. *)
Lemma public_read_iff (r : Person) :
  public_read_for_public_non_contact_people r = true <->
  privacy_level r = 0 /\ phone r = None /\ email r = None /\
  zalo r = None /\ facebook r = None /\ address r = None.
Proof.
  unfold public_read_for_public_non_contact_people.
  rewrite !andb_true_iff, !is_null_true_iff, Z.eqb_eq. tauto.
Qed.

(** For a request without a session only the public policy can pass. *)
Lemma people_select_using_anonymous (r : Person) :
  people_select_using None db r =
  public_read_for_public_non_contact_people r.
Proof.
  unfold people_select_using, authenticated_users_can_read_non_private_people,
    admins_can_read_all_people.
  rewrite exists_admin_profile_anonymous. cbn.
  now rewrite !orb_false_r.
Qed.

(** For a member the tier alone decides. *)
Lemma people_select_using_member (a : option uuid) (u : uuid) (r : Person) :
  resolve a db = Member u ->
  people_select_using a db r = (privacy_level r <? 2)%Z.
Proof.
  intro H. destruct (resolve_member a u H) as [-> Hadm].
  unfold people_select_using, authenticated_users_can_read_non_private_people,
    admins_can_read_all_people.
  rewrite Hadm, orb_false_r. cbn.
  destruct (public_read_for_public_non_contact_people r) eqn:Hpub;
    [|reflexivity].
  apply public_read_iff in Hpub. destruct Hpub as [H0 _].
  rewrite H0. reflexivity.
Qed.

Lemma people_select_using_admin (a : option uuid) (u : uuid) (r : Person) :
  resolve a db = Admin u -> people_select_using a db r = true.
Proof.
  intro H. destruct (resolve_admin a u H) as [_ Hadm].
  unfold people_select_using, admins_can_read_all_people.
  rewrite Hadm. apply orb_true_r.
Qed.

(** A row readable without a session stores no contact data. *)
Lemma anonymous_readable_no_contact (r : Person) :
  people_select_using None db r = true ->
  phone r = None /\ email r = None /\ zalo r = None /\
  facebook r = None /\ address r = None.
Proof. rewrite people_select_using_anonymous, public_read_iff. tauto. Qed.

Lemma visible_columns_allow (a : option uuid) (r : Person) :
  people_decision a db r = Allow ->
  visible_columns a db r = all_person_columns.
Proof. unfold visible_columns. now intros ->. Qed.

Lemma visible_columns_deny (a : option uuid) (r : Person) :
  people_decision a db r = Deny -> visible_columns a db r = [].
Proof. unfold visible_columns. now intros ->. Qed.

(** A contact cell of a row without contact data is NULL. *)
Lemma contact_cells_null (r : Person) (c : PersonColumn) :
  phone r = None -> email r = None -> zalo r = None ->
  facebook r = None -> address r = None ->
  is_contact_column c = true -> column_value c r = VNull.
Proof.
  intros Hp He Hz Hf Ha Hc.
  destruct c; try discriminate Hc; cbn;
    rewrite ?Hp, ?He, ?Hz, ?Hf, ?Ha; reflexivity.
Qed.

End PolicyFacts.

(** ** Anonymous reads of [people] *)

(** C1 -- no contact leak.  For every row of [people] and a request without
    a session: no contact column (phone, email, zalo, facebook, address)
    among the visible columns holds a value other than NULL; a row the
    decision allows has all five contact columns NULL; and so has every row
    an anonymous SELECT returns. *)
Theorem anonymous_no_contact_leak (db : Database) (r : Person) :
  (forall c, In c (visible_columns None db r) ->
             is_contact_column c = true -> column_value c r = VNull)
  /\ (people_decision None db r = Allow ->
      phone r = None /\ email r = None /\ zalo r = None /\
      facebook r = None /\ address r = None)
  /\ (In r (select_people None db) ->
      phone r = None /\ email r = None /\ zalo r = None /\
      facebook r = None /\ address r = None).
Proof.
  pose proof (anonymous_readable_no_contact db r) as Hnull.
  split; [|split].
  - intros c Hin Hc. unfold visible_columns, people_decision in Hin.
    destruct (people_select_using None db r) eqn:Hu; cbn in Hin;
      [|contradiction].
    destruct (Hnull eq_refl) as (Hp & He & Hz & Hf & Ha).
    now apply contact_cells_null.
  - intro H. apply decision_of_allow in H. exact (Hnull H).
  - intro Hin. apply filter_In in Hin. exact (Hnull (proj2 Hin)).
Qed.

Lemma anonymous_no_contact_leak_witness :
  column_value col_phone Sample.ancestor = VNull
  /\ phone Sample.ancestor = None.
Proof.
  destruct (anonymous_no_contact_leak Sample.db Sample.ancestor)
    as (Hcell & Hrow & _).
  split.
  - apply Hcell; [vm_compute; tauto | reflexivity].
  - apply Hrow. reflexivity.
Defined.

(** C2 -- anonymous row rule.  A request without a session is allowed to
    read a row of [people] exactly when its tier is 0 and its five contact
    columns are all NULL; it is denied in every other case, in particular
    for a living person with tier 0 and a phone number. *)
Theorem anonymous_row_rule (db : Database) (r : Person) :
  (people_decision None db r = Allow <->
   privacy_level r = 0 /\ phone r = None /\ email r = None /\
   zalo r = None /\ facebook r = None /\ address r = None)
  /\ (people_decision None db r = Deny <->
      privacy_level r <> 0 \/ phone r <> None \/ email r <> None \/
      zalo r <> None \/ facebook r <> None \/ address r <> None)
  /\ (privacy_level r = 0 -> is_living r = true -> phone r <> None ->
      people_decision None db r = Deny).
Proof.
  assert (Hallow : people_decision None db r = Allow <->
    privacy_level r = 0 /\ phone r = None /\ email r = None /\
    zalo r = None /\ facebook r = None /\ address r = None).
  { unfold people_decision.
    rewrite decision_of_allow, people_select_using_anonymous.
    apply public_read_iff. }
  assert (Hdeny : people_decision None db r = Deny <->
    privacy_level r <> 0 \/ phone r <> None \/ email r <> None \/
    zalo r <> None \/ facebook r <> None \/ address r <> None).
  { split.
    - intro Hd.
      destruct (Z.eq_dec (privacy_level r) 0) as [Ht|Ht]; [|now left].
      destruct (phone r) eqn:Hp; [right; left; discriminate|].
      destruct (email r) eqn:He; [right; right; left; discriminate|].
      destruct (zalo r) eqn:Hz; [do 3 right; left; discriminate|].
      destruct (facebook r) eqn:Hf; [do 4 right; left; discriminate|].
      destruct (address r) eqn:Ha; [do 5 right; discriminate|].
      assert (Ha' : people_decision None db r = Allow) by (apply Hallow; tauto).
      congruence.
    - intro Hor. destruct Hallow as [Hallow _].
      destruct (people_decision None db r); [|reflexivity].
      specialize (Hallow eq_refl). tauto. }
  split; [exact Hallow | split; [exact Hdeny|]].
  intros _ _ Hp. apply Hdeny. right; left; exact Hp.
Qed.

Lemma anonymous_row_rule_witness :
  people_decision None Sample.db Sample.living_with_phone = Deny.
Proof.
  apply (anonymous_row_rule Sample.db Sample.living_with_phone);
    [reflexivity | reflexivity | discriminate].
Defined.

(** C3, counterexample.  The public ancestor is allowed to a request
    without a session, and the row it gets carries the stored biography and
    notes: [anonymous_fields_exclude_biography_and_notes] is false. *)
Lemma anonymous_reads_biography_and_notes :
  people_decision None Sample.db Sample.ancestor = Allow
  /\ In col_biography (visible_columns None Sample.db Sample.ancestor)
  /\ In col_notes (visible_columns None Sample.db Sample.ancestor)
  /\ column_value col_biography Sample.ancestor
     = VText "Founder of the branch"
  /\ column_value col_notes Sample.ancestor = VText "Grave moved in 1952"
  /\ (anonymous_fields_exclude_biography_and_notes -> False).
Proof.
  assert (Hb : In col_biography
                 (visible_columns None Sample.db Sample.ancestor))
    by (vm_compute; tauto).
  repeat split; try reflexivity; try exact Hb.
  - vm_compute; tauto.
  - intro Hclaim.
    destruct (Hclaim Sample.db Sample.ancestor eq_refl) as (Hnb & _).
    exact (Hnb Hb).
Qed.

(** C3, amended.  When a request without a session is allowed to read a
    person, the row comes back whole: the visible columns are all the
    columns of [people], so name and generation are included and so are
    biography and notes; the five contact columns are NULL. *)
Theorem anonymous_allowed_row_is_whole (db : Database) (r : Person) :
  people_decision None db r = Allow ->
  visible_columns None db r = all_person_columns
  /\ In col_display_name (visible_columns None db r)
  /\ In col_generation (visible_columns None db r)
  /\ In col_biography (visible_columns None db r)
  /\ In col_notes (visible_columns None db r)
  /\ (forall c, is_contact_column c = true -> column_value c r = VNull).
Proof.
  intro H. rewrite (visible_columns_allow db None r H).
  repeat split; try (cbn; tauto).
  intros c Hc.
  apply decision_of_allow in H.
  destruct (anonymous_readable_no_contact db r H) as (Hp & He & Hz & Hf & Ha).
  now apply contact_cells_null.
Qed.

Lemma anonymous_allowed_row_is_whole_witness :
  visible_columns None Sample.db Sample.ancestor = all_person_columns.
Proof.
  apply (anonymous_allowed_row_is_whole Sample.db Sample.ancestor).
  reflexivity.
Defined.

(** ** New people *)

(** An INSERT that leaves [privacy_level] out stores the column default,
    members-only. *)
Lemma insert_without_privacy_level (values : Person) (t : list Person) :
  insert_people values None t = (t ++ [set_privacy_level 1 values])%list.
Proof. reflexivity. Qed.

(** C4 -- the tier of a person created from the untouched form.  The form
    starts from [defaultPersonValues], whose [privacy_level] is 0, and the
    schema makes the key required: the INSERT gives the column the value 0,
    the column default 1 is not used, and the stored row is public.  Only
    an INSERT without the column stores 1. *)
Theorem default_form_person_is_stored_public
    (values : Person) (t : list Person) :
  personSchema_privacy_level defaultPersonValues = Some 0
  /\ stored_privacy_level (personSchema_privacy_level defaultPersonValues) = 0
  /\ insert_people values (personSchema_privacy_level defaultPersonValues) t
     = (t ++ [set_privacy_level 0 values])%list
  /\ stored_privacy_level None = 1.
Proof. repeat split. Qed.

(** ** Events and media *)

(** C5, counterexample.  In the sample database the member is denied the
    private person but allowed the event and the photo that reference that
    person: [events_inherit_person_tier] is false. *)
Lemma member_reads_event_of_private_person :
  resolve (Some "u-member") Sample.db = Member "u-member"
  /\ In Sample.private_person (people Sample.db)
  /\ person_id Sample.private_event = Some (id Sample.private_person)
  /\ privacy_level Sample.private_person = 2
  /\ people_decision (Some "u-member") Sample.db Sample.private_person = Deny
  /\ events_decision (Some "u-member") Sample.private_event = Allow
  /\ media_decision (Some "u-member") Sample.private_photo = Allow
  /\ (events_inherit_person_tier -> False).
Proof.
  assert (Hin : In Sample.private_person (people Sample.db))
    by (cbn; tauto).
  repeat split; try reflexivity; try exact Hin.
  intro Hclaim.
  specialize (Hclaim Sample.db (Some "u-member") "u-member"
                Sample.private_event Sample.private_person
                eq_refl Hin eq_refl eq_refl).
  discriminate Hclaim.
Qed.

(** C5, amended.  An event or media row, whether or not it references a
    person, is allowed exactly when the request has a session; the tier and
    the contact data of a referenced person play no part.  So a member is
    allowed every event and media row, also one that references a tier-2
    person, and a request without a session gets none. *)
Theorem events_and_media_need_only_a_session
    (db : Database) (a : option uuid) (e : Event) (m : Media) :
  (events_decision a e = Allow <-> a <> None)
  /\ (media_decision a m = Allow <-> a <> None)
  /\ (forall u, resolve a db = Member u ->
                events_decision a e = Allow /\ media_decision a m = Allow)
  /\ select_events None db = [] /\ select_media None db = []
  /\ (forall u, select_events (Some u) db = events db
                /\ select_media (Some u) db = media db).
Proof.
  assert (He : forall x : option uuid,
             decision_of (is_not_null x) = Allow <-> x <> None).
  { intro x. rewrite decision_of_allow. apply is_not_null_true_iff. }
  split; [apply He|].
  split; [apply He|].
  split.
  { intros u Hm. apply resolve_member in Hm. destruct Hm as [-> _].
    split; reflexivity. }
  split.
  { unfold select_events, authenticated_can_read_events. cbn.
    induction (events db) as [|x xs IH]; cbn; [reflexivity | exact IH]. }
  split.
  { unfold select_media, authenticated_can_read_media. cbn.
    induction (media db) as [|x xs IH]; cbn; [reflexivity | exact IH]. }
  intro u. split.
  - unfold select_events, authenticated_can_read_events. cbn.
    induction (events db) as [|x xs IH]; cbn; [reflexivity | now rewrite IH].
  - unfold select_media, authenticated_can_read_media. cbn.
    induction (media db) as [|x xs IH]; cbn; [reflexivity | now rewrite IH].
Qed.

Lemma events_and_media_need_only_a_session_witness :
  events_decision (Some "u-member") Sample.private_event = Allow
  /\ media_decision (Some "u-member") Sample.private_photo = Allow.
Proof.
  destruct (events_and_media_need_only_a_session Sample.db
              (Some "u-member") Sample.private_event Sample.private_photo)
    as (_ & _ & Hmember & _).
  apply (Hmember "u-member"). reflexivity.
Defined.

(** ** Members and administrators *)

(** C6 -- member row rule.  A member is allowed to read a row of [people]
    exactly when its tier is below 2; a tier-2 row is denied to the member
    and allowed, with every column, to an administrator. *)
Theorem member_row_rule
    (db : Database) (m : option uuid) (um : uuid) (r : Person) :
  resolve m db = Member um ->
  (people_decision m db r = Allow <-> privacy_level r < 2)
  /\ (people_decision m db r = Deny <-> 2 <= privacy_level r)
  /\ (privacy_level r = 2 ->
      people_decision m db r = Deny
      /\ forall a ua, resolve a db = Admin ua ->
           people_decision a db r = Allow
           /\ visible_columns a db r = all_person_columns).
Proof.
  intro Hm.
  assert (Hallow : people_decision m db r = Allow <-> privacy_level r < 2).
  { unfold people_decision.
    rewrite decision_of_allow, (people_select_using_member db m um r Hm).
    apply Z.ltb_lt. }
  assert (Hdeny : people_decision m db r = Deny <-> 2 <= privacy_level r).
  { unfold people_decision.
    rewrite decision_of_deny, (people_select_using_member db m um r Hm).
    apply Z.ltb_ge. }
  split; [exact Hallow | split; [exact Hdeny|]].
  intro Htwo. split; [apply Hdeny; lia|].
  intros a ua Ha.
  assert (Hadmin : people_decision a db r = Allow).
  { unfold people_decision. rewrite decision_of_allow.
    now apply people_select_using_admin with ua. }
  split; [exact Hadmin | now apply visible_columns_allow].
Qed.

Lemma member_row_rule_witness :
  people_decision (Some "u-member") Sample.db Sample.private_person = Deny
  /\ people_decision (Some "u-admin") Sample.db Sample.private_person
     = Allow.
Proof.
  destruct (member_row_rule Sample.db (Some "u-member") "u-member"
              Sample.private_person eq_refl) as (_ & _ & Htwo).
  destruct (Htwo eq_refl) as (Hdeny & Hadmin).
  split; [exact Hdeny|].
  apply (Hadmin (Some "u-admin") "u-admin"). reflexivity.
Defined.

(** C7 -- profile isolation.  A row of [profiles] is denied to a request
    without a session and allowed to every member and administrator; the
    decision is the same for any two profile rows and any two databases,
    it depends on nothing but the presence of a session. *)
Theorem profile_isolation (db : Database) (p : Profile) :
  profiles_decision None p = Deny
  /\ (forall a, resolve a db <> Anonymous -> profiles_decision a p = Allow)
  /\ (forall a u, resolve a db = Member u \/ resolve a db = Admin u ->
                  profiles_decision a p = Allow)
  /\ (forall a p', profiles_decision a p' = profiles_decision a p)
  /\ (forall a, profiles_decision a p = Allow <-> a <> None)
  /\ select_profiles None db = [].
Proof.
  split; [reflexivity|].
  split.
  { intros a Ha. destruct a as [u|]; [reflexivity|].
    exfalso. apply Ha. reflexivity. }
  split.
  { intros a u [Ha|Ha].
    - apply resolve_member in Ha. destruct Ha as [-> _]. reflexivity.
    - apply resolve_admin in Ha. destruct Ha as [-> _]. reflexivity. }
  split; [reflexivity|].
  split; [|apply select_profiles_anonymous].
  intro a. unfold profiles_decision, authenticated_users_can_read_profiles.
  rewrite decision_of_allow. apply is_not_null_true_iff.
Qed.

Lemma profile_isolation_witness :
  profiles_decision (Some "u-member") Sample.admin_profile = Allow.
Proof.
  destruct (profile_isolation Sample.db Sample.admin_profile)
    as (_ & _ & Hauth & _).
  apply (Hauth (Some "u-member") "u-member"). left. reflexivity.
Defined.

(** C9 -- tier monotonicity.  A row of [people] that is denied to a member
    is denied to a request without a session as well. *)
Theorem anonymous_never_more_permissive_than_member
    (db : Database) (m : option uuid) (u : uuid) (r : Person) :
  resolve m db = Member u ->
  people_decision m db r = Deny ->
  people_decision None db r = Deny.
Proof.
  intros Hm Hd. unfold people_decision in *.
  rewrite decision_of_deny in *.
  rewrite (people_select_using_member db m u r Hm) in Hd.
  rewrite people_select_using_anonymous.
  destruct (public_read_for_public_non_contact_people r) eqn:Hpub;
    [|reflexivity].
  apply public_read_iff in Hpub. destruct Hpub as [H0 _].
  rewrite H0 in Hd. discriminate Hd.
Qed.

Lemma anonymous_never_more_permissive_than_member_witness :
  people_decision None Sample.db Sample.private_person = Deny.
Proof.
  apply (anonymous_never_more_permissive_than_member Sample.db
           (Some "u-member") "u-member" Sample.private_person);
    reflexivity.
Defined.

(** C10 -- the living flag plays no part in the anonymous decision.  A row
    with tier 0 and all five contact columns NULL is allowed to a request
    without a session, also when [is_living] is true; and changing the flag
    of any row never changes the anonymous decision. *)
Theorem anonymous_decision_ignores_is_living (db : Database) (r : Person) :
  (privacy_level r = 0 -> phone r = None -> email r = None ->
   zalo r = None -> facebook r = None -> address r = None ->
   people_decision None db r = Allow)
  /\ (is_living r = true -> privacy_level r = 0 -> phone r = None ->
      email r = None -> zalo r = None -> facebook r = None ->
      address r = None -> people_decision None db r = Allow)
  /\ (forall b, people_decision None db (set_is_living b r)
                = people_decision None db r).
Proof.
  assert (H : privacy_level r = 0 -> phone r = None -> email r = None ->
              zalo r = None -> facebook r = None -> address r = None ->
              people_decision None db r = Allow).
  { intros. unfold people_decision.
    rewrite decision_of_allow, people_select_using_anonymous.
    apply public_read_iff. tauto. }
  split; [exact H | split; [intros _; exact H|]].
  intro b. unfold people_decision.
  now rewrite !people_select_using_anonymous.
Qed.

Lemma anonymous_decision_ignores_is_living_witness :
  is_living Sample.living_public = true
  /\ people_decision None Sample.db Sample.living_public = Allow.
Proof.
  split; [reflexivity|].
  destruct (anonymous_decision_ignores_is_living Sample.db
              Sample.living_public) as (_ & Hliving & _).
  apply Hliving; reflexivity.
Defined.

(** ** The reclassification sweep *)

Lemma sec05_where_iff (r : Person) :
  sec05_where r = true <-> public_living_with_contact r.
Proof.
  unfold sec05_where, public_living_with_contact.
  rewrite !andb_true_iff, !orb_true_iff, !is_not_null_true_iff, Z.eqb_eq,
    eqb_true_iff.
  tauto.
Qed.

Lemma sec05_where_after_set (r : Person) :
  sec05_where (set_privacy_level 1 r) = false.
Proof. reflexivity. Qed.

Lemma sec05_update_row_idempotent (r : Person) :
  sec05_update_row (sec05_update_row r) = sec05_update_row r.
Proof.
  unfold sec05_update_row at 2 3.
  destruct (sec05_where r) eqn:Hw; unfold sec05_update_row.
  - now rewrite sec05_where_after_set.
  - now rewrite Hw.
Qed.

Lemma sec05_update_row_spec (r : Person) :
  (public_living_with_contact r ->
   sec05_update_row r = set_privacy_level 1 r)
  /\ (~ public_living_with_contact r -> sec05_update_row r = r)
  /\ (sec05_update_row r <> r <-> public_living_with_contact r)
  /\ privacy_level r <= privacy_level (sec05_update_row r).
Proof.
  unfold sec05_update_row.
  destruct (sec05_where r) eqn:Hw.
  - assert (Hc : public_living_with_contact r) by now apply sec05_where_iff.
    assert (H0 : privacy_level r = 0) by apply Hc.
    split; [reflexivity|].
    split; [intro Hn; contradiction|].
    split; [|cbn; lia].
    split; [intros _; exact Hc|].
    intros _ Heq. apply (f_equal privacy_level) in Heq. cbn in Heq. lia.
  - assert (Hc : ~ public_living_with_contact r).
    { intro Hc. apply sec05_where_iff in Hc. congruence. }
    split; [intro Hy; contradiction|].
    split; [reflexivity|].
    split; [|lia].
    split; [intro Hne; now elim Hne | intro Hy; contradiction].
Qed.

Lemma sec05_update_idempotent (db : Database) :
  sec05_update (sec05_update db) = sec05_update db.
Proof.
  unfold sec05_update, sec05_update_people. cbn. f_equal.
  rewrite map_map. apply map_ext. apply sec05_update_row_idempotent.
Qed.

(** C8 -- the sweep.  Row by row, the UPDATE turns exactly the rows with
    tier 0, [is_living] true and at least one contact column set into the
    same row with tier 1 and leaves every other row as it is; no row ends
    with a lower tier than it had; and running the UPDATE a second time
    changes nothing. *)
Theorem sec05_sweep_exact_tightening_idempotent (t : list Person) :
  Forall2
    (fun r r' =>
       (public_living_with_contact r -> r' = set_privacy_level 1 r)
       /\ (~ public_living_with_contact r -> r' = r)
       /\ (r' <> r <-> public_living_with_contact r)
       /\ privacy_level r <= privacy_level r')
    t (sec05_update_people t)
  /\ sec05_update_people (sec05_update_people t) = sec05_update_people t.
Proof.
  split.
  - induction t as [|r t IH]; cbn; constructor.
    + apply sec05_update_row_spec.
    + exact IH.
  - unfold sec05_update_people. rewrite map_map.
    apply map_ext. apply sec05_update_row_idempotent.
Qed.

Lemma sec05_sweep_exact_tightening_idempotent_witness :
  sec05_update_row Sample.living_with_phone = Sample.members_only
  /\ sec05_update_people (sec05_update_people Sample.corpus)
     = sec05_update_people Sample.corpus.
Proof.
  split.
  - destruct (sec05_sweep_exact_tightening_idempotent
                [Sample.living_with_phone]) as [Hrows _].
    apply Forall2_cons_iff in Hrows. destruct Hrows as [(Hset & _) _].
    apply Hset.
    split; [reflexivity | split; [reflexivity | left; discriminate]].
  - apply (sec05_sweep_exact_tightening_idempotent Sample.corpus).
Defined.

(** ** Further facts about the migration *)

Lemma admin_row_iff (u : uuid) (p : Profile) :
  sql_true (sql_and (sql_eq (Some (user_id p)) (Some u))
                    (sql_eq (Some (role p)) (Some "admin"))) = true
  <-> user_id p = u /\ role p = "admin".
Proof.
  cbn. destruct (String.eqb_spec (user_id p) u) as [Hu|Hu];
    destruct (String.eqb_spec (role p) "admin") as [Hr|Hr]; cbn;
    split; intro H; try discriminate; try tauto.
Qed.

Lemma exists_admin_profile_iff (db : Database) (u : uuid) :
  exists_admin_profile (Some u) db = true <->
  exists p, In p (profiles db) /\ user_id p = u /\ role p = "admin".
Proof.
  unfold exists_admin_profile. rewrite select_profiles_authenticated.
  rewrite existsb_exists. split.
  - intros (p & Hin & Hp). exists p. split; [exact Hin|].
    now apply admin_row_iff.
  - intros (p & Hin & Hp). exists p. split; [exact Hin|].
    now apply admin_row_iff.
Qed.

(** X1 -- who is an administrator.  A request is treated as an
    administrator's exactly when it has a session and [profiles] holds a
    row for that user whose role is the string [admin]; a session without
    such a row is a member's, whatever other roles the user has. *)
Theorem admin_iff_admin_profile (db : Database) (a : option uuid) (u : uuid) :
  (resolve a db = Admin u <->
   a = Some u /\
   exists p, In p (profiles db) /\ user_id p = u /\ role p = "admin")
  /\ (resolve a db = Member u <->
      a = Some u /\
      forall p, In p (profiles db) -> user_id p = u -> role p <> "admin").
Proof.
  split.
  - split.
    + intro H. apply resolve_admin in H. destruct H as [-> Hadm].
      split; [reflexivity | now apply exists_admin_profile_iff].
    + intros [-> Hex]. apply exists_admin_profile_iff in Hex.
      unfold resolve. now rewrite Hex.
  - split.
    + intro H. apply resolve_member in H. destruct H as [-> Hadm].
      split; [reflexivity|]. intros p Hin Hu Hr.
      assert (Ht : exists_admin_profile (Some u) db = true).
      { apply exists_admin_profile_iff. now exists p. }
      congruence.
    + intros [-> Hno]. unfold resolve.
      destruct (exists_admin_profile (Some u) db) eqn:He; [|reflexivity].
      apply exists_admin_profile_iff in He.
      destruct He as (p & Hin & Hu & Hr). now elim (Hno p Hin Hu).
Qed.

(** X2 -- administrators read everything.  An administrator's SELECT on
    [people] returns the whole table, and whatever row and columns any
    requester is allowed, the administrator is allowed too. *)
Theorem admin_reads_every_person
    (db : Database) (a : option uuid) (u : uuid) :
  resolve a db = Admin u ->
  select_people a db = people db
  /\ forall (b : option uuid) (r : Person),
       (people_decision b db r = Allow -> people_decision a db r = Allow)
       /\ incl (visible_columns b db r) (visible_columns a db r).
Proof.
  intro Ha.
  assert (Hall : forall r, people_decision a db r = Allow).
  { intro r. unfold people_decision. rewrite decision_of_allow.
    now apply people_select_using_admin with u. }
  split.
  - unfold select_people.
    induction (people db) as [|r rs IH]; cbn; [reflexivity|].
    rewrite (people_select_using_admin db a u r Ha). now rewrite IH.
  - intros b r. split; [intros _; apply Hall|].
    rewrite (visible_columns_allow db a r (Hall r)).
    unfold visible_columns. destruct (people_decision b db r).
    + apply incl_refl.
    + intros c Hc. contradiction.
Qed.

Lemma admin_reads_every_person_witness :
  select_people (Some "u-admin") Sample.db = people Sample.db.
Proof.
  apply (admin_reads_every_person Sample.db (Some "u-admin") "u-admin").
  reflexivity.
Defined.

Lemma people_select_using_sweep (a : option uuid) (db : Database)
    (r : Person) :
  people_select_using a (sec05_update db) (sec05_update_row r)
  = people_select_using a db r.
Proof.
  unfold people_select_using, admins_can_read_all_people,
    authenticated_users_can_read_non_private_people.
  change (exists_admin_profile a (sec05_update db))
    with (exists_admin_profile a db).
  unfold sec05_update_row.
  destruct (sec05_where r) eqn:Hw; [|reflexivity].
  apply sec05_where_iff in Hw. destruct Hw as (H0 & _ & Hc).
  f_equal. rewrite H0.
  assert (Hpub : forall x,
    public_read_for_public_non_contact_people (set_privacy_level x r)
    = false).
  { intro x. unfold public_read_for_public_non_contact_people. cbn.
    destruct (phone r), (email r), (zalo r), (facebook r), (address r);
      cbn; rewrite ?andb_false_r; try reflexivity.
    exfalso. destruct Hc as [H|[H|[H|[H|H]]]]; now apply H. }
  assert (Hpub0 : public_read_for_public_non_contact_people r = false).
  { unfold public_read_for_public_non_contact_people.
    destruct (phone r), (email r), (zalo r), (facebook r), (address r);
      cbn; rewrite ?andb_false_r; try reflexivity.
    exfalso. destruct Hc as [H|[H|[H|[H|H]]]]; now apply H. }
  rewrite Hpub, Hpub0. reflexivity.
Qed.

(** X3 -- the sweep changes nobody's view.  For every requester the SEC-05
    UPDATE leaves the decision on each row as it was, so a SELECT after the
    UPDATE returns the updated versions of the rows it returned before; for
    a request without a session the result is literally the same. *)
Theorem sweep_keeps_every_decision (a : option uuid) (db : Database) :
  (forall r, people_decision a (sec05_update db) (sec05_update_row r)
             = people_decision a db r)
  /\ select_people a (sec05_update db)
     = sec05_update_people (select_people a db)
  /\ select_people None (sec05_update db) = select_people None db.
Proof.
  assert (Hsel : forall b, select_people b (sec05_update db)
                           = sec05_update_people (select_people b db)).
  { intro b. unfold select_people, sec05_update_people. cbn.
    unfold sec05_update_people. rewrite filter_map_swap.
    f_equal. apply filter_ext. intro r. apply people_select_using_sweep. }
  split; [|split].
  - intro r. unfold people_decision. now rewrite people_select_using_sweep.
  - apply Hsel.
  - rewrite Hsel. unfold sec05_update_people, select_people.
    induction (people db) as [|r rs IH]; cbn; [reflexivity|].
    destruct (people_select_using None db r) eqn:Hu; [|exact IH].
    cbn. rewrite IH. f_equal.
    destruct (anonymous_readable_no_contact db r Hu)
      as (Hp & He & Hz & Hf & Ha).
    unfold sec05_update_row, sec05_where.
    rewrite Hp, He, Hz, Hf, Ha. cbn. now rewrite andb_false_r.
Qed.

(** X4 -- what the sweep achieves.  After the SEC-05 UPDATE no row of the
    table is public, living and carrying contact data at once, whatever the
    table held before. *)
Theorem after_sweep_no_public_living_contact (t : list Person) :
  Forall (fun r => ~ public_living_with_contact r) (sec05_update_people t).
Proof.
  unfold sec05_update_people. apply Forall_map. apply Forall_forall.
  intros r _ Hc. apply sec05_where_iff in Hc.
  unfold sec05_update_row in Hc.
  destruct (sec05_where r) eqn:Hw.
  - rewrite sec05_where_after_set in Hc. discriminate.
  - congruence.
Qed.

(** X5 -- a person stored with the column default.  A row inserted without
    a [privacy_level] is in the table with tier 1; whatever its other
    columns hold, it is denied to a request without a session and allowed
    to every member. *)
Theorem default_tier_person_not_public
    (db : Database) (values : Person) (t : list Person) :
  let r := set_privacy_level (stored_privacy_level None) values in
  In r (insert_people values None t)
  /\ privacy_level r = 1
  /\ people_decision None db r = Deny
  /\ (forall a u, resolve a db = Member u -> people_decision a db r = Allow).
Proof.
  cbn zeta. split; [|split; [reflexivity|split]].
  - unfold insert_people. apply in_or_app. right. now left.
  - unfold people_decision. rewrite decision_of_deny.
    rewrite people_select_using_anonymous. reflexivity.
  - intros a u Ha. unfold people_decision. rewrite decision_of_allow.
    now rewrite (people_select_using_member db a u _ Ha).
Qed.

(** X6 -- families and children.  Whatever the rows are, a SELECT on
    [families] or [children] returns nothing to a request without a
    session and the whole table to any request with one. *)
Theorem families_children_need_a_session {Row : Type} (t : list Row) :
  select_families None t = []
  /\ select_children None t = []
  /\ (forall u, select_families (Some u) t = t
                /\ select_children (Some u) t = t).
Proof.
  unfold select_families, select_children,
    authenticated_can_read_families, authenticated_can_read_children. cbn.
  assert (Hf : filter (fun _ : Row => false) t = []).
  { induction t as [|x xs IH]; cbn; [reflexivity | exact IH]. }
  assert (Ht : filter (fun _ : Row => true) t = t).
  { induction t as [|x xs IH]; cbn; [reflexivity | now rewrite IH]. }
  repeat split; assumption.
Qed.

(** ** The people list page *)

Section PeoplePageFacts.

Import PeoplePage.

Variable toLowerCase : string -> string.
Variable parseInt : string -> option Z.

Lemma strict_eq_true_iff (a b : option Z) :
  strict_eq a b = true <-> exists x, a = Some x /\ b = Some x.
Proof.
  destruct a as [x|], b as [y|]; cbn; split.
  - intro H. apply Z.eqb_eq in H. subst. now exists y.
  - intros (z & Ha & Hb). apply Z.eqb_eq. congruence.
  - discriminate.
  - intros (z & _ & Hb). discriminate.
  - discriminate.
  - intros (z & Ha & _). discriminate.
  - discriminate.
  - intros (z & Ha & _). discriminate.
Qed.

(** The callback of [filteredPeople] as one conjunction. *)
Lemma keeps_conjunction (f : Filters) (p : Person) :
  keeps toLowerCase parseInt f p =
  ((search f =? "")
   || includes (toLowerCase (display_name p)) (toLowerCase (search f)))
  && ((generationFilter f =? "all")
      || strict_eq (Some (generation p)) (parseInt (generationFilter f)))
  && ((chiFilter f =? "all")
      || strict_eq (chi p) (parseInt (chiFilter f)))
  && negb ((statusFilter f =? "living") && negb (is_living p))
  && negb ((statusFilter f =? "deceased") && is_living p).
Proof.
  unfold keeps.
  generalize (search f =? ""),
    (includes (toLowerCase (display_name p)) (toLowerCase (search f))),
    (generationFilter f =? "all"),
    (strict_eq (Some (generation p)) (parseInt (generationFilter f))),
    (chiFilter f =? "all"),
    (strict_eq (chi p) (parseInt (chiFilter f))),
    (statusFilter f =? "living"), (statusFilter f =? "deceased"),
    (is_living p).
  intros b1 b2 b3 b4 b5 b6 b7 b8 b9.
  destruct b1, b2, b3, b4; try reflexivity;
    destruct b5, b6, b7, b8, b9; reflexivity.
Qed.

Lemma status_guard_iff (a l : bool) :
  negb (a && negb l) = true <-> (a = true -> l = true).
Proof. destruct a, l; cbn; split; intro H; try reflexivity; try discriminate;
  try (intros _; reflexivity). now specialize (H eq_refl). Qed.

(** When a person passes the callback of [filteredPeople]. *)
Lemma keeps_true_iff (f : Filters) (p : Person) :
  keeps toLowerCase parseInt f p = true <->
  (search f = ""
   \/ includes (toLowerCase (display_name p)) (toLowerCase (search f)) = true)
  /\ (generationFilter f = "all"
      \/ parseInt (generationFilter f) = Some (generation p))
  /\ (chiFilter f = "all"
      \/ exists c, chi p = Some c /\ parseInt (chiFilter f) = Some c)
  /\ (statusFilter f = "living" -> is_living p = true)
  /\ (statusFilter f = "deceased" -> is_living p = false).
Proof.
  rewrite keeps_conjunction, !andb_true_iff, !orb_true_iff,
    !strict_eq_true_iff, !String.eqb_eq.
  replace (negb ((statusFilter f =? "deceased") && is_living p))
    with (negb ((statusFilter f =? "deceased") && negb (negb (is_living p))))
    by now rewrite negb_involutive.
  rewrite !status_guard_iff, !String.eqb_eq, negb_true_iff.
  split.
  - intros ((((Hs & Hg) & Hc) & Hl) & Hd).
    repeat split; try assumption.
    destruct Hg as [Hg|(x & Hx & Hp)]; [now left | right].
    injection Hx as <-. exact Hp.
  - intros (Hs & Hg & Hc & Hl & Hd).
    repeat split; try assumption.
    destruct Hg as [Hg|Hg]; [now left | right].
    now exists (generation p).
Qed.

Lemma filter_keeps_all {A : Type} (g : A -> bool) (l : list A) :
  (forall x, In x l -> g x = true) -> filter g l = l.
Proof.
  induction l as [|x xs IH]; cbn; intro H; [reflexivity|].
  rewrite (H x (or_introl eq_refl)). f_equal. apply IH.
  intros y Hy. apply H. now right.
Qed.

Lemma prefix_refl (s : string) : String.prefix s s = true.
Proof.
  induction s as [|c s IH]; cbn; [reflexivity|].
  destruct (Ascii.ascii_dec c c) as [_|Hn]; [exact IH | now elim Hn].
Qed.

Lemma includes_refl (s : string) : includes s s = true.
Proof. destruct s; cbn [includes]; now rewrite prefix_refl. Qed.

Lemma In_Set_values (x : Z) (xs : list Z) :
  In x (Set_values xs) <-> In x xs.
Proof.
  induction xs as [|a r IH]; cbn; [tauto|].
  rewrite filter_In, IH, negb_true_iff, Z.eqb_neq.
  destruct (Z.eq_dec a x) as [->|Hn]; [tauto|].
  split; intros [H|H]; try tauto. right. split; [exact H | congruence].
Qed.

Lemma NoDup_Set_values (xs : list Z) : NoDup (Set_values xs).
Proof.
  induction xs as [|a r IH]; cbn; constructor.
  - rewrite filter_In, Z.eqb_refl. cbn. intros [_ H]. discriminate.
  - now apply NoDup_filter.
Qed.

Lemma insert_number_perm (x : Z) (l : list Z) :
  Permutation (insert_number x l) (x :: l).
Proof.
  induction l as [|y r IH]; cbn; [reflexivity|].
  destruct (x <=? y)%Z; [reflexivity|].
  rewrite IH. apply perm_swap.
Qed.

Lemma sort_numbers_perm (l : list Z) : Permutation (sort_numbers l) l.
Proof.
  induction l as [|x r IH]; cbn; [reflexivity|].
  rewrite insert_number_perm. now constructor.
Qed.

Lemma insert_number_sorted (x : Z) (l : list Z) :
  StronglySorted Z.le l -> StronglySorted Z.le (insert_number x l).
Proof.
  induction l as [|y r IH]; cbn; intro Hs.
  - constructor; constructor.
  - inversion Hs as [|? ? Hr Hy]; subst.
    destruct (x <=? y)%Z eqn:Hxy.
    + apply Z.leb_le in Hxy. constructor; [exact Hs|].
      constructor; [exact Hxy|].
      eapply Forall_impl; [|exact Hy]. intros z Hz. cbn in Hz. lia.
    + apply Z.leb_gt in Hxy. constructor; [now apply IH|].
      eapply Permutation_Forall.
      * symmetry. apply insert_number_perm.
      * constructor; [lia | exact Hy].
Qed.

Lemma sort_numbers_sorted (l : list Z) : StronglySorted Z.le (sort_numbers l).
Proof.
  induction l as [|x r IH]; cbn; [constructor|].
  now apply insert_number_sorted.
Qed.

Lemma sorted_nodup_strict (l : list Z) :
  StronglySorted Z.le l -> NoDup l -> StronglySorted Z.lt l.
Proof.
  induction l as [|x r IH]; intros Hs Hn; [constructor|].
  inversion Hs as [|? ? Hr Hx]; subst.
  inversion Hn as [|? ? Hnotin Hnr]; subst.
  constructor; [now apply IH|].
  apply Forall_forall. intros y Hy.
  rewrite Forall_forall in Hx. specialize (Hx y Hy).
  assert (x <> y) by (intro; subst; contradiction). lia.
Qed.

(** Sorting the distinct values: strictly ascending, same members. *)
Lemma sorted_set_spec (xs : list Z) :
  StronglySorted Z.lt (sort_numbers (Set_values xs))
  /\ forall x, In x (sort_numbers (Set_values xs)) <-> In x xs.
Proof.
  split.
  - apply sorted_nodup_strict; [apply sort_numbers_sorted|].
    eapply Permutation_NoDup; [|apply NoDup_Set_values].
    symmetry. apply sort_numbers_perm.
  - intro x. split; intro H.
    + apply In_Set_values.
      eapply Permutation_in; [apply sort_numbers_perm | exact H].
    + apply In_Set_values in H.
      eapply Permutation_in; [symmetry; apply sort_numbers_perm | exact H].
Qed.

(** X7 -- no active filter, whole list.  When [hasFilters] is falsy the
    filters are in the state [clearFilters] sets, and the page shows every
    person it loaded, in the order it loaded them. *)
Theorem no_active_filter_shows_everyone (f : Filters) :
  hasFilters f = false ->
  f = clearFilters
  /\ forall ps, filteredPeople toLowerCase parseInt f (Some ps) = ps.
Proof.
  unfold hasFilters. rewrite !orb_false_iff, !negb_false_iff, !String.eqb_eq.
  intros (((Hs & Hg) & Hc) & Hst).
  assert (Hf : f = clearFilters).
  { destruct f; cbn in *; subst; reflexivity. }
  split; [exact Hf|]. subst f. intro ps. cbn.
  apply filter_keeps_all. intros p _. reflexivity.
Qed.

Lemma keeps_with_status (s : string) (f : Filters) (p : Person) :
  keeps toLowerCase parseInt (with_status s f) p =
  keeps toLowerCase parseInt (with_status "all" f) p
  && (negb ((s =? "living") && negb (is_living p))
      && negb ((s =? "deceased") && is_living p)).
Proof.
  rewrite !keeps_conjunction. cbn. rewrite !andb_true_r.
  now rewrite <- !andb_assoc.
Qed.

Lemma filter_split_perm {A : Type} (g h : A -> bool) (l : list A) :
  Permutation (filter (fun x => g x && h x) l
               ++ filter (fun x => g x && negb (h x)) l)
              (filter g l).
Proof.
  induction l as [|x xs IH]; cbn; [constructor|].
  destruct (g x), (h x); cbn; try exact IH.
  - now constructor.
  - rewrite <- IH. symmetry. apply Permutation_middle.
Qed.

(** X8 -- the status filter splits the list.  With the other three filters
    fixed, the people shown under "living" and those shown under "deceased"
    are together exactly the people shown under "all", nobody twice:
    the first are all living, the second all deceased.  Any other status
    value filters nothing. *)
Theorem status_filter_splits_the_list (f : Filters) (ps : list Person) :
  let shown s :=
    filteredPeople toLowerCase parseInt (with_status s f) (Some ps) in
  Permutation (shown "living" ++ shown "deceased") (shown "all")
  /\ (forall p, In p (shown "living") -> is_living p = true)
  /\ (forall p, In p (shown "deceased") -> is_living p = false)
  /\ (forall s, s <> "living" -> s <> "deceased" -> shown s = shown "all").
Proof.
  cbn zeta. unfold filteredPeople.
  assert (Hl : forall p, keeps toLowerCase parseInt (with_status "living" f) p
             = keeps toLowerCase parseInt (with_status "all" f) p
               && is_living p).
  { intro p. rewrite keeps_with_status. destruct (is_living p); reflexivity. }
  assert (Hd : forall p,
             keeps toLowerCase parseInt (with_status "deceased" f) p
             = keeps toLowerCase parseInt (with_status "all" f) p
               && negb (is_living p)).
  { intro p. rewrite keeps_with_status. destruct (is_living p); reflexivity. }
  split; [|split; [|split]].
  - rewrite (filter_ext _ _ Hl), (filter_ext _ _ Hd).
    apply filter_split_perm.
  - intros p Hin. apply filter_In in Hin. destruct Hin as [_ Hk].
    rewrite Hl in Hk. now apply andb_true_iff in Hk.
  - intros p Hin. apply filter_In in Hin. destruct Hin as [_ Hk].
    rewrite Hd in Hk. apply andb_true_iff in Hk.
    now apply negb_true_iff.
  - intros s Hnl Hnd. apply filter_ext. intro p.
    rewrite keeps_with_status.
    apply String.eqb_neq in Hnl, Hnd. rewrite Hnl, Hnd. cbn.
    apply andb_true_r.
Qed.

(** X9 -- the generation options.  The generations offered in the select
    are strictly ascending, hence without repetition, and they are exactly
    the generations of the loaded people; with no data there is none. *)
Theorem generations_sorted_and_exact (ps : list Person) :
  StronglySorted Z.lt (generations (Some ps))
  /\ (forall g, In g (generations (Some ps)) <->
                exists p, In p ps /\ generation p = g)
  /\ generations None = [].
Proof.
  unfold generations.
  destruct (sorted_set_spec (map generation ps)) as [Hs Hin].
  split; [exact Hs | split; [|reflexivity]].
  intro g. rewrite Hin, in_map_iff. split; intros (p & H1 & H2); eauto.
Qed.

(** X10 -- the branch options.  The branch numbers offered in the select
    are strictly ascending and are exactly the non-zero branch numbers of
    the loaded people: a person without a branch number, and one whose
    branch number is 0, contribute nothing. *)
Theorem chiValues_sorted_and_nonzero (ps : list Person) :
  StronglySorted Z.lt (chiValues (Some ps))
  /\ (forall c, In c (chiValues (Some ps)) <->
                c <> 0 /\ exists p, In p ps /\ chi p = Some c)
  /\ ~ In 0 (chiValues (Some ps)).
Proof.
  unfold chiValues.
  destruct (sorted_set_spec (map chi_value (filter chi_truthy ps)))
    as [Hs Hin].
  assert (Hiff : forall c,
    In c (sort_numbers (Set_values (map chi_value (filter chi_truthy ps))))
    <-> c <> 0 /\ exists p, In p ps /\ chi p = Some c).
  { intro c. rewrite Hin, in_map_iff. split.
    - intros (p & Hv & Hp). apply filter_In in Hp. destruct Hp as [Hp Ht].
      unfold chi_truthy in Ht. unfold chi_value in Hv.
      destruct (chi p) as [c'|] eqn:Hc; [|discriminate]. subst c'.
      apply negb_true_iff, Z.eqb_neq in Ht. split; [exact Ht|].
      now exists p.
    - intros (Hnz & p & Hp & Hc). exists p. split.
      + unfold chi_value. now rewrite Hc.
      + apply filter_In. split; [exact Hp|].
        unfold chi_truthy. rewrite Hc.
        now apply negb_true_iff, Z.eqb_neq. }
  split; [exact Hs | split; [exact Hiff|]].
  intro H0. apply Hiff in H0. now destruct H0 as [Hn _].
Qed.

(** X11 -- the generation and branch filters are exact.  Under a
    generation filter every person shown has the generation the filter
    value parses to, and under a branch filter every person shown has a
    branch number, the one the value parses to; when the value parses to
    NaN nobody is shown. *)
Theorem number_filters_are_exact (f : Filters) (ps : list Person) :
  (generationFilter f <> "all" ->
   (forall p, In p (filteredPeople toLowerCase parseInt f (Some ps)) ->
              parseInt (generationFilter f) = Some (generation p))
   /\ (parseInt (generationFilter f) = None ->
       filteredPeople toLowerCase parseInt f (Some ps) = []))
  /\ (chiFilter f <> "all" ->
      (forall p, In p (filteredPeople toLowerCase parseInt f (Some ps)) ->
                 exists c, chi p = Some c
                           /\ parseInt (chiFilter f) = Some c)
      /\ (parseInt (chiFilter f) = None ->
          filteredPeople toLowerCase parseInt f (Some ps) = [])).
Proof.
  assert (Hnil : forall l : list Person, (forall p, ~ In p l) -> l = []).
  { intros [|x xs] H; [reflexivity|]. now elim (H x (or_introl eq_refl)). }
  unfold filteredPeople. split; intro Hne.
  - assert (Hg : forall p, In p (filter (keeps toLowerCase parseInt f) ps) ->
                 parseInt (generationFilter f) = Some (generation p)).
    { intros p Hin. apply filter_In in Hin. destruct Hin as [_ Hk].
      apply keeps_true_iff in Hk. destruct Hk as (_ & [Hg|Hg] & _);
        [contradiction | exact Hg]. }
    split; [exact Hg|]. intro Hnan. apply Hnil. intros p Hin.
    specialize (Hg p Hin). congruence.
  - assert (Hc : forall p, In p (filter (keeps toLowerCase parseInt f) ps) ->
                 exists c, chi p = Some c
                           /\ parseInt (chiFilter f) = Some c).
    { intros p Hin. apply filter_In in Hin. destruct Hin as [_ Hk].
      apply keeps_true_iff in Hk. destruct Hk as (_ & _ & [Hc|Hc] & _);
        [contradiction | exact Hc]. }
    split; [exact Hc|]. intro Hnan. apply Hnil. intros p Hin.
    destruct (Hc p Hin) as (c & _ & Hp). congruence.
Qed.

(** X12 -- searching a name finds its bearer.  With the other filters at
    "all", typing the exact display name of a loaded person into the search
    box keeps that person in the list, whatever [toLowerCase] does to the
    name. *)
Theorem search_by_own_name_finds_person (p : Person) (ps : list Person) :
  In p ps ->
  In p (filteredPeople toLowerCase parseInt
          {| search := display_name p; generationFilter := "all";
             chiFilter := "all"; statusFilter := "all" |} (Some ps)).
Proof.
  intro Hin. unfold filteredPeople. apply filter_In. split; [exact Hin|].
  apply keeps_true_iff. cbn.
  repeat split; try (now left); try discriminate.
  right. apply includes_refl.
Qed.

(** X13 -- an offered generation is never empty.  Choosing one of the
    offered generations (the option value is the number printed by
    [toString], which [parseInt] reads back) with the other filters clear
    shows exactly the loaded people of that generation, and at least
    one. *)
Theorem offered_generation_shows_its_people
    (toString : Z -> string) (g : Z) (ps : list Person) :
  In g (generations (Some ps)) ->
  parseInt (toString g) = Some g ->
  toString g <> "all" ->
  let shown :=
    filteredPeople toLowerCase parseInt
      {| search := ""; generationFilter := toString g;
         chiFilter := "all"; statusFilter := "all" |} (Some ps) in
  shown = filter (fun p => (generation p =? g)%Z) ps /\ shown <> [].
Proof.
  intros Hg Hparse Hne. cbn zeta. unfold filteredPeople.
  assert (Heq : filter (keeps toLowerCase parseInt
                  {| search := ""; generationFilter := toString g;
                     chiFilter := "all"; statusFilter := "all" |}) ps
                = filter (fun p => (generation p =? g)%Z) ps).
  { apply filter_ext. intro p. rewrite keeps_conjunction. cbn.
    apply String.eqb_neq in Hne. rewrite Hne, Hparse. cbn.
    now rewrite !andb_true_r. }
  split; [exact Heq|]. rewrite Heq.
  apply (sorted_set_spec (map generation ps)) in Hg.
  apply in_map_iff in Hg. destruct Hg as (p & Hgp & Hp).
  intro Hnil.
  assert (Hin : In p (filter (fun p => (generation p =? g)%Z) ps)).
  { apply filter_In. split; [exact Hp | now apply Z.eqb_eq]. }
  rewrite Hnil in Hin. contradiction.
Qed.

End PeoplePageFacts.

Lemma no_active_filter_shows_everyone_witness :
  PeoplePage.filteredPeople (fun s => s) (fun _ => None)
    PeoplePage.clearFilters (Some Sample.corpus)
  = Sample.corpus.
Proof.
  apply (no_active_filter_shows_everyone (fun s => s) (fun _ => None)
           PeoplePage.clearFilters).
  reflexivity.
Defined.

Lemma search_by_own_name_finds_person_witness :
  In Sample.ancestor
     (PeoplePage.filteredPeople (fun s => s) (fun _ => None)
        {| PeoplePage.search := "To Tien";
           PeoplePage.generationFilter := "all";
           PeoplePage.chiFilter := "all";
           PeoplePage.statusFilter := "all" |} (Some Sample.corpus)).
Proof.
  apply (search_by_own_name_finds_person (fun s => s) (fun _ => None)
           Sample.ancestor Sample.corpus).
  cbn. tauto.
Defined.

Lemma offered_generation_shows_its_people_witness :
  PeoplePage.filteredPeople (fun s => s) (fun _ => Some 7)
    {| PeoplePage.search := ""; PeoplePage.generationFilter := "7";
       PeoplePage.chiFilter := "all"; PeoplePage.statusFilter := "all" |}
    (Some Sample.corpus)
  <> [].
Proof.
  apply (offered_generation_shows_its_people (fun s => s) (fun _ => Some 7)
           (fun _ => "7") 7 Sample.corpus).
  - vm_compute. tauto.
  - reflexivity.
  - discriminate.
Defined.

(** ** The add-event dialog *)

Section DialogFacts.

Import AddEventDialog.

Variable LunarDate : Type.
Variable parseLunarString : string -> option LunarDate.
Variable trim : string -> string.
Variable mutateAsync : CreateEventInput -> bool.

Local Abbreviation submit :=
  (handleSubmit LunarDate parseLunarString trim mutateAsync).
Local Abbreviation input_of := (submit_input trim).
Local Abbreviation submittable :=
  (AddEventDialog.submittable LunarDate parseLunarString trim).

(** The four ways a submit can go. *)
Lemma handleSubmit_cases (st : State) :
  (trim (title st) = ""
   /\ submit st = [ToastError "Vui lòng nhập tiêu đề"])
  \/ (trim (title st) <> "" /\ eventLunar st <> ""
      /\ parseLunarString (eventLunar st) = None
      /\ submit st = [ToastError "Ngày âm lịch không hợp lệ"])
  \/ (submittable st /\ mutateAsync (input_of st) = true
      /\ submit st = [Mutate (input_of st);
                      ToastSuccess "Đã thêm sự kiện"; OnClose])
  \/ (submittable st /\ mutateAsync (input_of st) = false
      /\ submit st = [Mutate (input_of st);
                      ToastError "Lỗi khi thêm sự kiện"]).
Proof.
  unfold handleSubmit, submittable, lunar_ok.
  destruct (String.eqb_spec (trim (title st)) "") as [Ht|Ht];
    [left; split; [exact Ht | reflexivity]|].
  destruct (String.eqb_spec (eventLunar st) "") as [Hl|Hl]; cbn.
  - destruct (mutateAsync (input_of st)) eqn:Hm.
    + right; right; left. repeat split; auto.
    + right; right; right. repeat split; auto.
  - destruct (parseLunarString (eventLunar st)) eqn:Hp; cbn.
    + destruct (mutateAsync (input_of st)) eqn:Hm.
      * right; right; left. repeat split; auto. right. discriminate.
      * right; right; right. repeat split; auto. right. discriminate.
    + right; left. repeat split; auto.
Qed.

Lemma or_undefined_not_empty (s : string) : or_undefined s <> Some "".
Proof.
  unfold or_undefined. destruct (String.eqb_spec s "") as [H|H];
    [discriminate|]. intro Heq. injection Heq as Heq. contradiction.
Qed.

Lemma or_undefined_some (s v : string) :
  or_undefined s = Some v -> v = s /\ s <> "".
Proof.
  unfold or_undefined. destruct (String.eqb_spec s "") as [H|H];
    [discriminate|]. intro Heq. injection Heq as <-. split; auto.
Qed.

(** A state that passes both checks is sent first of all. *)
Lemma submittable_mutates_first (st : State) :
  submittable st -> exists rest, submit st = Mutate (input_of st) :: rest.
Proof.
  intros [Ht Hl].
  destruct (handleSubmit_cases st)
    as [(Ht' & Hs)|[(Ht' & Hl' & Hp & Hs)|[(Hv & Hm & Hs)|(Hv & Hm & Hs)]]].
  - contradiction.
  - destruct Hl as [Hl|Hl]; contradiction.
  - eexists. exact Hs.
  - eexists. exact Hs.
Qed.

(** X14 -- when a submit reaches the server.  [handleSubmit] calls the
    mutation exactly when the trimmed title is not empty and the lunar date
    is empty or accepted by [parseLunarString]; it then calls it once, first
    of all, with the input built from the state; otherwise its only effect
    is one error toast. *)
Theorem submit_saves_iff_valid (st : State) :
  ((exists input, In (Mutate input) (submit st)) <-> submittable st)
  /\ (submittable st ->
      exists rest, submit st = Mutate (input_of st) :: rest
                   /\ filter is_mutate rest = [])
  /\ (~ submittable st -> exists message, submit st = [ToastError message]).
Proof.
  destruct (handleSubmit_cases st)
    as [(Ht & Hs)|[(Ht & Hl & Hp & Hs)|[(Hv & Hm & Hs)|(Hv & Hm & Hs)]]];
    rewrite Hs.
  - assert (Hn : ~ submittable st) by (intros [H _]; contradiction).
    split; [|split].
    + split; [|intro Hv; contradiction].
      intros (i & [Hi|[]]). discriminate.
    + intro Hv. contradiction.
    + intros _. eauto.
  - assert (Hn : ~ submittable st).
    { intros [_ [H|H]]; contradiction. }
    split; [|split].
    + split; [|intro Hv; contradiction].
      intros (i & [Hi|[]]). discriminate.
    + intro Hv. contradiction.
    + intros _. eauto.
  - split; [|split].
    + split; [intros _; exact Hv | intros _; eexists; now left].
    + intros _. eexists. split; reflexivity.
    + intro Hn. contradiction.
  - split; [|split].
    + split; [intros _; exact Hv | intros _; eexists; now left].
    + intros _. eexists. split; reflexivity.
    + intro Hn. contradiction.
Qed.

(** A mutation that happens carries the input built from the state. *)
Lemma mutate_input (st : State) (input : CreateEventInput) :
  In (Mutate input) (submit st) -> submittable st /\ input = input_of st.
Proof.
  intro Hin.
  destruct (handleSubmit_cases st)
    as [(Ht & Hs)|[(Ht & Hl & Hp & Hs)|[(Hv & Hm & Hs)|(Hv & Hm & Hs)]]];
    rewrite Hs in Hin; cbn in Hin.
  - destruct Hin as [H|[]]. discriminate.
  - destruct Hin as [H|[]]. discriminate.
  - destruct Hin as [H|[H|[H|[]]]]; try discriminate.
    injection H as <-. now split.
  - destruct Hin as [H|[H|[]]]; try discriminate.
    injection H as <-. now split.
Qed.

(** X15 -- what is sent.  The input a submit sends carries the trimmed,
    non-empty title, the event type of the state and the id of the selected
    person if there is one; its lunar date, date, location and description
    are either absent or non-empty, never the empty string, and a lunar
    date that is present is the one typed and parses. *)
Theorem saved_input_is_clean (st : State) (input : CreateEventInput) :
  In (Mutate input) (submit st) ->
  input_title input = trim (title st)
  /\ input_title input <> ""
  /\ input_event_type input = eventType st
  /\ input_person_id input = option_map id (selectedPerson st)
  /\ input_recurring input = recurring st
  /\ input_event_lunar input <> Some ""
  /\ input_event_date input <> Some ""
  /\ input_location input <> Some ""
  /\ input_description input <> Some ""
  /\ (forall s, input_event_lunar input = Some s ->
                s = eventLunar st /\ parseLunarString s <> None).
Proof.
  intro Hin. pose proof (mutate_input st input Hin) as Hv.
  destruct Hv as [[Ht Hl] ->]. cbn.
  repeat (split; [first [reflexivity | exact Ht
                         | apply or_undefined_not_empty]|]).
  intros s Hs. apply or_undefined_some in Hs. destruct Hs as [-> Hne].
  split; [reflexivity|].
  destruct Hl as [Hl|Hl]; [contradiction | exact Hl].
Qed.


(** X17 -- the inline check and the submit check agree.  After
    [validateLunar] the error line is empty exactly when the typed value is
    empty or parses; with a non-blank title, an empty error line means the
    submit goes through with that lunar date (absent when empty), and a
    shown error means the submit is refused. *)
Theorem validateLunar_agrees_with_submit (v : string) (st : State) :
  let st' := validateLunar LunarDate parseLunarString v st in
  (lunarError st' = "" <-> v = "" \/ parseLunarString v <> None)
  /\ (trim (title st) <> "" -> lunarError st' = "" ->
      input_event_lunar (input_of st') = or_undefined v
      /\ exists rest, submit st' = Mutate (input_of st') :: rest)
  /\ (trim (title st) <> "" -> lunarError st' <> "" ->
      submit st' = [ToastError "Ngày âm lịch không hợp lệ"]).
Proof.
  cbn zeta.
  assert (Herr : lunarError (validateLunar LunarDate parseLunarString v st)
                 = "" <-> v = "" \/ parseLunarString v <> None).
  { unfold validateLunar, lunar_ok. cbn.
    destruct (String.eqb_spec v "") as [Hv|Hv]; [tauto|].
    destruct (parseLunarString v) eqn:Hp.
    - split; [intros _; right; discriminate | reflexivity].
    - split; [discriminate | intros [H|H]; contradiction]. }
  split; [exact Herr|]. split.
  - intros Ht He. split; [reflexivity|].
    apply Herr in He.
    destruct (submittable_mutates_first
                (validateLunar LunarDate parseLunarString v st))
      as [rest Hr]; [split; assumption|].
    now exists rest.
  - intros Ht He.
    destruct (handleSubmit_cases
                (validateLunar LunarDate parseLunarString v st))
      as [(Ht' & Hs)|[(Ht' & Hl & Hp & Hs)|[(Hv & Hm & Hs)|(Hv & Hm & Hs)]]].
    + contradiction.
    + exact Hs.
    + destruct Hv as [_ Hv]. now elim He; apply Herr.
    + destruct Hv as [_ Hv]. now elim He; apply Herr.
Qed.

(** X18 -- a copied lunar date is not checked.  Picking a person for a
    "gio" event copies the person's lunar death date into the form and
    clears the error line without parsing it: when that date does not
    parse, the form shows no error and yet no submit of that state reaches
    the server. *)
Theorem selected_lunar_date_is_not_checked
    (st : State) (p : Person) (d : string) :
  eventType st = "gio" ->
  death_lunar p = Some d -> d <> "" ->
  parseLunarString d = None ->
  let st' := handleSelectPerson p st in
  eventLunar st' = d
  /\ lunarError st' = ""
  /\ forall input, ~ In (Mutate input) (submit st').
Proof.
  intros Hg Hd Hne Hp. cbn zeta.
  assert (Hl : eventLunar (handleSelectPerson p st) = d).
  { unfold handleSelectPerson. cbn. rewrite Hd, Hg.
    apply String.eqb_neq in Hne. now rewrite Hne. }
  split; [exact Hl|]. split.
  - unfold handleSelectPerson. cbn. rewrite Hd, Hg.
    apply String.eqb_neq in Hne. now rewrite Hne.
  - intros input Hin. apply mutate_input in Hin.
    destruct Hin as [[_ [He|He]] _]; rewrite Hl in He; contradiction.
Qed.

(** X19 -- the selected person stays attached.  Changing the event type
    after a person was picked does not drop the person: a submit that
    reaches the server then carries the new type together with that
    person's id.  After [handleClearPerson] it carries no person. *)
Theorem selected_person_outlives_type_change
    (st : State) (p : Person) (t : string) (input : CreateEventInput) :
  (In (Mutate input) (submit (setEventType t (handleSelectPerson p st))) ->
   input_person_id input = Some (id p) /\ input_event_type input = t)
  /\ (In (Mutate input) (submit (handleClearPerson st)) ->
      input_person_id input = None).
Proof.
  split; intro Hin; apply mutate_input in Hin; destruct Hin as [_ ->].
  - split; reflexivity.
  - reflexivity.
Qed.

End DialogFacts.

Lemma saved_input_is_clean_witness :
  AddEventDialog.input_person_id
    (AddEventDialog.submit_input (fun s => s) DialogSample.picked)
  = option_map id (AddEventDialog.selectedPerson DialogSample.picked).
Proof.
  apply (saved_input_is_clean unit DialogSample.parse (fun s => s)
           DialogSample.resolves DialogSample.picked
           (AddEventDialog.submit_input (fun s => s) DialogSample.picked)).
  left. reflexivity.
Defined.

Lemma selected_lunar_date_is_not_checked_witness :
  AddEventDialog.lunarError
    (AddEventDialog.handleSelectPerson DialogSample.dashed
       AddEventDialog.initial) = "".
Proof.
  apply (selected_lunar_date_is_not_checked unit DialogSample.parse
           (fun s => s) DialogSample.resolves AddEventDialog.initial
           DialogSample.dashed "15-7");
    [reflexivity | reflexivity | discriminate | reflexivity].
Defined.

(** ** The featured charter card *)

Section CharterFacts.

Import FeaturedCharter.

Variable object_prototype_has : string -> bool.

(** X20 -- at most three articles.  The card renders nothing while the
    articles load, when there are none and when the list is empty;
    otherwise it shows the first three articles of the list, or all of
    them when there are fewer, in the order of the list: at least one
    entry and at most three. *)
Theorem featured_charter_shows_first_three
    (isLoading : bool) (articles : option (list Article)) :
  (FeaturedCharter object_prototype_has isLoading articles = None <->
   isLoading = true \/ articles = None \/ articles = Some [])
  /\ forall items,
       FeaturedCharter object_prototype_has isLoading articles = Some items ->
       exists l,
         articles = Some l
         /\ List.length items = Nat.min 3 (List.length l)
         /\ (1 <= List.length items <= 3)%nat
         /\ map item_key items = firstn 3 (map article_id l)
         /\ map item_title items = firstn 3 (map article_title l)
         /\ map item_content items = firstn 3 (map content l).
Proof.
  unfold FeaturedCharter. split.
  - destruct articles as [[|a l]|]; destruct isLoading; cbn; split;
      intro H; try reflexivity; try discriminate; try tauto.
    destruct H as [H|[H|H]]; discriminate.
  - intros items H.
    destruct articles as [l|]; [|discriminate].
    destruct isLoading; [discriminate|]. cbn [orb] in H.
    destruct (Nat.eqb_spec (List.length l) 0) as [H0|H0]; [discriminate|].
    assert (Hi : items
                 = map (render_article object_prototype_has) (firstn 3 l))
      by (symmetry; now injection H).
    rewrite Hi. clear H Hi. exists l.
    rewrite length_map, length_firstn, !map_map, !firstn_map.
    repeat split; try reflexivity; lia.
Qed.

End CharterFacts.

Lemma featured_charter_shows_first_three_witness :
  exists l, Some DialogSample.articles = Some l
            /\ List.length (map (FeaturedCharter.render_article (fun _ => false))
                              (firstn 3 DialogSample.articles))
               = Nat.min 3 (List.length l).
Proof.
  destruct (featured_charter_shows_first_three (fun _ => false) false
              (Some DialogSample.articles)) as [_ Hitems].
  destruct (Hitems _ eq_refl) as (l & Hl & Hlen & _).
  exists l. split; [exact Hl | exact Hlen].
Defined.

(** ** Instances on the sample data *)

Lemma admin_iff_admin_profile_witness :
  resolve (Some "u-admin") Sample.db = Admin "u-admin".
Proof.
  destruct (admin_iff_admin_profile Sample.db (Some "u-admin") "u-admin")
    as [[_ Hadmin] _].
  apply Hadmin. split; [reflexivity|].
  exists Sample.admin_profile. cbn. tauto.
Defined.

Lemma default_tier_person_not_public_witness :
  people_decision (Some "u-member") Sample.db
    (set_privacy_level 1 Sample.ancestor) = Allow.
Proof.
  destruct (default_tier_person_not_public Sample.db Sample.ancestor [])
    as (_ & _ & _ & Hmember).
  apply (Hmember (Some "u-member") "u-member"). reflexivity.
Defined.

Lemma status_filter_splits_the_list_witness :
  is_living Sample.living_with_phone = true.
Proof.
  destruct (status_filter_splits_the_list (fun s => s) (fun _ => None)
              PeoplePage.clearFilters Sample.corpus) as (_ & Hliving & _).
  apply Hliving. vm_compute. tauto.
Defined.

Lemma number_filters_are_exact_witness :
  Some 7 = Some (generation Sample.living_with_phone).
Proof.
  destruct (number_filters_are_exact (fun s => s) (fun _ => Some 7)
              {| PeoplePage.search := ""; PeoplePage.generationFilter := "7";
                 PeoplePage.chiFilter := "all";
                 PeoplePage.statusFilter := "all" |} Sample.corpus)
    as [Hgen _].
  destruct Hgen as [Hexact _]; [discriminate|].
  apply (Hexact Sample.living_with_phone). vm_compute. tauto.
Defined.

Lemma submit_saves_iff_valid_witness :
  exists rest,
    AddEventDialog.handleSubmit unit DialogSample.parse (fun s => s)
      DialogSample.resolves DialogSample.picked
    = AddEventDialog.Mutate
        (AddEventDialog.submit_input (fun s => s) DialogSample.picked)
      :: rest
    /\ filter AddEventDialog.is_mutate rest = [].
Proof.
  destruct (submit_saves_iff_valid unit DialogSample.parse (fun s => s)
              DialogSample.resolves DialogSample.picked) as (_ & Hfirst & _).
  apply Hfirst. split; [discriminate | right; discriminate].
Defined.

Lemma validateLunar_agrees_with_submit_witness :
  AddEventDialog.lunarError
    (AddEventDialog.validateLunar unit DialogSample.parse "15/7"
       DialogSample.picked) = "".
Proof.
  destruct (validateLunar_agrees_with_submit unit DialogSample.parse
              (fun s => s) DialogSample.resolves "15/7" DialogSample.picked)
    as [[_ Hok] _].
  apply Hok. right. discriminate.
Defined.

Lemma selected_person_outlives_type_change_witness :
  AddEventDialog.input_person_id
    (AddEventDialog.submit_input (fun s => s)
       (AddEventDialog.setEventType "hop_ho" DialogSample.picked))
  = Some "p-ancestor".
Proof.
  destruct (selected_person_outlives_type_change unit DialogSample.parse
              (fun s => s) DialogSample.resolves AddEventDialog.initial
              Sample.ancestor "hop_ho"
              (AddEventDialog.submit_input (fun s => s)
                 (AddEventDialog.setEventType "hop_ho" DialogSample.picked)))
    as [Hkept _].
  apply Hkept. left. reflexivity.
Defined.
